(** * Candidate scoring and pipeline-stage derivation

    A shallow embedding of the scoring, banding, gating and stage-derivation
    code of the recruitment application, and the properties its
    specification states about it.

    JavaScript numbers are IEEE-754 binary64 values; they are modelled by
    Rocq's primitive floats, so every arithmetic step below rounds exactly as
    the page code does, and NaN, the zeros and the infinities are all
    present.  Nullable and optional fields are [option]s, arrays are lists,
    and a JSON object used as a mapping is an association list in insertion
    order (the order in which [Object.values] enumerates it). *)

From Stdlib Require Import Floats ZArith Zpower List String Ascii Bool Lia.
From Stdlib Require Import Permutation Sorted.
Import ListNotations.

Set Warnings "-inexact-float".
Set Implicit Arguments.

Open Scope float_scope.

(** ** JavaScript values *)

Module JS.

(** [!x] on a number: zero (of either sign) and NaN are falsy. *)
Definition falsy_number (x : float) : bool := (x =? 0) || PrimFloat.is_nan x.

Definition truthy_number (x : float) : bool := negb (falsy_number x).

(** Truthiness of a [number | null] field. *)
Definition truthy_num (v : option float) : bool :=
  match v with
  | Some x => truthy_number x
  | None => false
  end.

(** [v || 0] on a [number | null] field. *)
Definition or_zero (v : option float) : float :=
  match v with
  | Some x => if truthy_number x then x else 0
  | None => 0
  end.

(** Truthiness of a [string | null | undefined] field: the empty string is
    falsy. *)
Definition truthy_str (v : option string) : bool :=
  match v with
  | Some s => negb (String.eqb s "")
  | None => false
  end.

(** An array length as a number. *)
Definition number_of_nat (n : nat) : float :=
  PrimFloat.of_uint63 (Uint63.of_Z (Z.of_nat n)).

(** [xs.reduce((sum, score) => sum + score, 0)] *)
Definition reduce_add (xs : list float) : float :=
  fold_left (fun sum score => sum + score) xs 0.

(** [xs[i]], [undefined] out of range. *)
Definition index {A : Type} (xs : list A) (i : nat) : option A :=
  nth_error xs i.

(** [Array.prototype.sort(compareFn)]: a stable sort; [a] is moved behind
    [b] only when [compareFn(a, b) > 0] (a NaN result counts as [+0]).
    Elements are inserted from the right, so equal elements keep their
    relative order. *)
Section Sort.
Variable A : Type.
Variable compareFn : A -> A -> float.

Fixpoint insert (a : A) (l : list A) : list A :=
  match l with
  | [] => [a]
  | b :: l' =>
      if 0 <? compareFn a b then b :: insert a l' else a :: b :: l'
  end.

Definition sort (l : list A) : list A := fold_right insert [] l.
End Sort.

End JS.

(** ** Data model: the rows the pages select *)

(** [ai_insights.overall_assessment]: category name to score. *)
Definition Assessment := list (string * float).

Definition Object_values (a : Assessment) : list float := map snd a.

Record AiInsights := {
  overall_assessment : option Assessment
}.

Record Interview := {
  interview_id : string;
  status : string;
  ai_insights : option AiInsights
}.

Record Application := {
  id : string;
  total_score : option float;
  recruitment_task_status : option string;
  candidate_decision : option string;
  interviews : option (list Interview)
}.

(** [interview?.ai_insights?.overall_assessment] *)
Definition assessment_of (interview : option Interview) : option Assessment :=
  match interview with
  | Some i =>
      match ai_insights i with
      | Some ins => overall_assessment ins
      | None => None
      end
  | None => None
  end.

(** [{ technical, softSkills, combined }] *)
Record Scores := {
  technical : float;
  softSkills : float;
  combined : float
}.

(** The three recommendation bands.  On the ranking page their labels are
    "Nie rekomendowany", "Semi-rekomendowany" and "Rekomendowany"; the
    profile page words the middle one "Częściowo rekomendowany". *)
Inductive Recommendation :=
| NotRecommended
| SemiRecommended
| Recommended.

(** [type RecruitmentStage] *)
Inductive RecruitmentStage :=
| new_applications
| cv_screening
| ai_interview
| recruitment_task
| decision.

(** ** The candidate ranking page *)

Module Ranking.

(** [app.interviews && app.interviews.length > 0
      ? app.interviews[app.interviews.length - 1] : null] *)
Definition latest_interview (app : Application) : option Interview :=
  match interviews app with
  | Some l =>
      if (0 <? List.length l)%nat then JS.index l (List.length l - 1)
      else None
  | None => None
  end.

Definition calculateCombinedScore (app : Application) : Scores :=
  let technicalScore := JS.or_zero (total_score app) in
  let interview := latest_interview app in
  let softSkillsScore :=
    match assessment_of interview with
    | Some a =>
        let softSkillsScores := Object_values a in
        (JS.reduce_add softSkillsScores
           / JS.number_of_nat (List.length softSkillsScores)) * 10
    | None => 0
    end in
  let combinedScore := (technicalScore * 0.65) + (softSkillsScore * 0.35) in
  {| technical := technicalScore;
     softSkills := softSkillsScore;
     combined := combinedScore |}.

(** [fetchApplications]: the order in which the fetched rows are shown,
    [(data || []).sort((a, b) =>
       (b.total_score || 0) - (a.total_score || 0))]. *)
Definition compareFn (a b : Application) : float :=
  JS.or_zero (total_score b) - JS.or_zero (total_score a).

Definition sortedData (data : option (list Application)) : list Application :=
  JS.sort compareFn match data with Some rows => rows | None => [] end.

Inductive Qualification :=
| NotScored          (* "Nie oceniono" *)
| Qualifies          (* "Kwalifikuje się do AI interview" *)
| DoesNotQualify.    (* "Nie kwalifikuje się" *)

Definition getQualificationStatus (score : option float) : Qualification :=
  match score with
  | None => NotScored
  | Some s =>
      if JS.falsy_number s then NotScored
      else if 25 <=? s then Qualifies
      else DoesNotQualify
  end.

Inductive InterviewLabel :=
| NoInterview        (* "Brak rozmowy" *)
| Completed          (* "Zakończona" *)
| Scheduled          (* "Zaplanowana" *)
| InProgress         (* "W trakcie" *)
| UnknownStatus.     (* "Nieznany status" *)

Record InterviewStatus := {
  label : InterviewLabel;
  hasData : bool;
  interview : option Interview
}.

(** The [None] answer of the index below cannot arise: the list is not
    empty there. *)
Definition getInterviewStatus (interviews : option (list Interview))
  : InterviewStatus :=
  match interviews with
  | None => {| label := NoInterview; hasData := false; interview := None |}
  | Some [] => {| label := NoInterview; hasData := false; interview := None |}
  | Some l =>
      match JS.index l (List.length l - 1) with
      | None =>
          {| label := UnknownStatus; hasData := false; interview := None |}
      | Some latestInterview =>
          if String.eqb (status latestInterview) "completed" then
            {| label := Completed; hasData := true;
               interview := Some latestInterview |}
          else if String.eqb (status latestInterview) "scheduled" then
            {| label := Scheduled; hasData := false; interview := None |}
          else if String.eqb (status latestInterview) "in_progress" then
            {| label := InProgress; hasData := false; interview := None |}
          else
            {| label := UnknownStatus; hasData := false; interview := None |}
      end
  end.

Definition getInterviewScore (interview : Interview) : option float :=
  match assessment_of (Some interview) with
  | None => None
  | Some a =>
      let scores := Object_values a in
      if (0 <? List.length scores)%nat
      then Some (JS.reduce_add scores / JS.number_of_nat (List.length scores))
      else None
  end.

(** [getInterviewScore(interview)] where the interview may be missing:
    [interview?.ai_insights] is then [undefined] and the answer [null]. *)
Definition getInterviewScore_of (interview : option Interview)
  : option float :=
  match interview with
  | Some i => getInterviewScore i
  | None => None
  end.

Record TaskStatus := {
  canSend : bool;
  task_status : option string
}.

Definition getTaskStatus (app : Application) : TaskStatus :=
  let scores := calculateCombinedScore app in
  let isEligible := 50 <=? combined scores in
  let taskStatus := recruitment_task_status app in
  if negb isEligible then {| canSend := false; task_status := None |}
  else
    match taskStatus with
    | None => {| canSend := true; task_status := Some "not_sent"%string |}
    | Some s =>
        if String.eqb s "" then
          {| canSend := true; task_status := Some "not_sent"%string |}
        else if String.eqb s "task_sent" then
          {| canSend := false;
             task_status := Some "waiting_for_solution"%string |}
        else if String.eqb s "task_completed" then
          {| canSend := false; task_status := Some "completed"%string |}
        else {| canSend := true; task_status := Some "not_sent"%string |}
    end.

Definition getRecommendationBadge (app : Application) : Recommendation :=
  let scores := calculateCombinedScore app in
  let combinedScore := combined scores in
  if combinedScore <=? 20 then NotRecommended
  else if combinedScore <=? 50 then SemiRecommended
  else Recommended.

(** The condition under which the "AI Interview" button is rendered:
    [app.total_score && app.total_score >= 20 && !interviewStatus.hasData]. *)
Definition showInterviewButton (app : Application) : bool :=
  let interviewStatus := getInterviewStatus (interviews app) in
  match total_score app with
  | None => false
  | Some s =>
      JS.truthy_number s && (20 <=? s) && negb (hasData interviewStatus)
  end.

End Ranking.

(** ** The candidate profile page *)

Module Profile.

Definition getApplicationStage (application : Application)
  : RecruitmentStage :=
  if negb (JS.truthy_num (total_score application)) then new_applications
  else
    match interviews application with
    | None => cv_screening
    | Some [] => cv_screening
    | Some (_ :: _) =>
        if negb (JS.truthy_str (recruitment_task_status application))
        then ai_interview
        else if JS.truthy_str (candidate_decision application) then decision
        else recruitment_task
    end.

(** [app.interviews?.[0]] *)
Definition first_interview (app : Application) : option Interview :=
  match interviews app with
  | Some l => JS.index l 0
  | None => None
  end.

Definition calculateScores (app : Application) : Scores :=
  let technicalScore := JS.or_zero (total_score app) in
  let interview := first_interview app in
  let softSkillsScore :=
    match assessment_of interview with
    | Some a =>
        let softSkillsScores := Object_values a in
        (JS.reduce_add softSkillsScores
           / JS.number_of_nat (List.length softSkillsScores)) * 10
    | None => 0
    end in
  let combinedScore := (technicalScore * 0.65) + (softSkillsScore * 0.35) in
  {| technical := technicalScore;
     softSkills := softSkillsScore;
     combined := combinedScore |}.

(** The band shown under the scores summary:
    [scores.combined >= 50 ? ... : scores.combined >= 20 ? ... : ...]. *)
Definition recommendation (scores : Scores) : Recommendation :=
  if 50 <=? combined scores then Recommended
  else if 20 <=? combined scores then SemiRecommended
  else NotRecommended.

End Profile.

(** ** The candidate list page *)

Module Candidates.

Definition getApplicationStage (application : Application)
  : RecruitmentStage :=
  (* Stage 1: New application (has CV, no score) *)
  if negb (JS.truthy_num (total_score application)) then new_applications
  else
    (* Stage 2: CV screening (has score, no interviews) *)
    match interviews application with
    | None => cv_screening
    | Some [] => cv_screening
    | Some (_ :: _) =>
        (* Stage 3: AI interview (has interviews, no recruitment task) *)
        if negb (JS.truthy_str (recruitment_task_status application))
        then ai_interview
        (* Stage 6: Decision (has final decision) *)
        else if JS.truthy_str (candidate_decision application) then decision
        (* Stage 4: Recruitment task (has task status, no final decision) *)
        else recruitment_task
    end.

End Candidates.

(** ** The dashboard (kanban) page *)

Module Dashboard.

Definition getApplicationStage (application : Application)
  : RecruitmentStage :=
  if negb (JS.truthy_num (total_score application)) then new_applications
  else
    match interviews application with
    | None => cv_screening
    | Some [] => cv_screening
    | Some (_ :: _) =>
        if negb (JS.truthy_str (recruitment_task_status application))
        then ai_interview
        else if JS.truthy_str (candidate_decision application) then decision
        else recruitment_task
    end.

End Dashboard.

(** ** The combination rule as the specification words it *)

Module Spec.

(** [combine(technicalScore, softSkillScore)]:
    [softSkillsNormalized = (softSkillScore ?? 0) * 10] and
    [combined = technicalScore * 0.65 + softSkillsNormalized * 0.35]. *)
Definition combine (technicalScore : float) (softSkillScore : option float)
  : Scores :=
  let softSkillsNormalized :=
    match softSkillScore with
    | Some s => s
    | None => 0
    end * 10 in
  {| technical := technicalScore;
     softSkills := softSkillsNormalized;
     combined := technicalScore * 0.65 + softSkillsNormalized * 0.35 |}.

(** The mean the score computations take of an assessment that is
    present: sum of the category values over their number. *)
Definition mean (a : Assessment) : float :=
  JS.reduce_add (Object_values a)
    / JS.number_of_nat (List.length (Object_values a)).

(** The value domain the schema documents for [recruitment_task_status]:
    "task_sent, task_completed, or NULL". *)
Definition valid_task_status (v : option string) : Prop :=
  v = None \/ v = Some "task_sent"%string \/ v = Some "task_completed"%string.

End Spec.

(** ** Sample rows *)

Module Samples.

Definition interview_with (st : string) (a : option Assessment) : Interview :=
  {| interview_id := "i"; status := st;
     ai_insights := Some {| overall_assessment := a |} |}.

(** A completed interview whose assessment has the single category [a]. *)
Definition scored (v : float) : Interview :=
  interview_with "completed" (Some [("a"%string, v)]).

Definition application_with (score : option float)
    (task dec : option string) (ivs : list Interview) : Application :=
  {| id := "a"; total_score := score; recruitment_task_status := task;
     candidate_decision := dec; interviews := Some ivs |}.

End Samples.

(** ** More of the ranking page *)

Module RankingPage.

(** [getScoreColor]: the CSS class of the combined score. *)
Definition getScoreColor (score : option float) : string :=
  match score with
  | None => "text-gray-400"%string
  | Some s =>
      if JS.falsy_number s then "text-gray-400"%string
      else if 70 <=? s then "text-green-600"%string
      else if 50 <=? s then "text-yellow-600"%string
      else if 25 <=? s then "text-orange-600"%string
      else "text-red-600"%string
  end.

(** A [Set<string>]: its elements in insertion order, without repetition. *)
Definition StringSet := list string.

Definition has (set : StringSet) (x : string) : bool :=
  existsb (String.eqb x) set.

Definition add (set : StringSet) (x : string) : StringSet :=
  if has set x then set else set ++ [x].

Definition delete (set : StringSet) (x : string) : StringSet :=
  filter (fun y => negb (String.eqb x y)) set.

(** The state update of [toggleCardExpansion], applied to the previous
    set. *)
Definition toggleCardExpansion (prev : StringSet) (appId : string)
  : StringSet :=
  let newSet := prev in
  if has newSet appId then delete newSet appId else add newSet appId.

(** [startAIInterview]: [`interview_${app.id}_${Date.now()}`], with the
    decimal rendering of the clock value as [now]. *)
Definition interviewToken (app : Application) (now : string) : string :=
  ("interview_" ++ id app ++ "_" ++ now)%string.

(** [sendRecruitmentTask]: the rows of the applications table after
    [update({ recruitment_task_status: 'task_sent' }).eq('id', app.id)] has
    succeeded. *)
Definition sendRecruitmentTask (rows : list Application) (app : Application)
  : list Application :=
  map (fun row =>
         if String.eqb (id row) (id app) then
           {| id := id row;
              total_score := total_score row;
              recruitment_task_status := Some "task_sent"%string;
              candidate_decision := candidate_decision row;
              interviews := interviews row |}
         else row) rows.

End RankingPage.

(** ** The interview webhook *)

Module Webhook.

(** [token.split('_')] *)
Fixpoint split_underscore (token : string) : list string :=
  match token with
  | EmptyString => [EmptyString]
  | String c rest =>
      if Ascii.eqb c "_"%char then EmptyString :: split_underscore rest
      else
        match split_underscore rest with
        | part :: parts => String c part :: parts
        | [] => [String c EmptyString]
        end
  end.

(** The application id the webhook falls back to when no interview carries
    the token: [tokenParts[1]], provided
    [tokenParts.length >= 3 && tokenParts[0] === 'interview']. *)
Definition applicationIdOfToken (token : string) : option string :=
  let tokenParts := split_underscore token in
  if (3 <=? List.length tokenParts)%nat
     && match JS.index tokenParts 0 with
        | Some part => String.eqb part "interview"
        | None => false
        end
  then JS.index tokenParts 1
  else None.



End Webhook.

(** ** More of the dashboard *)

Module DashboardPage.

Record StageConfig := {
  stage_id : RecruitmentStage;
  name : string;
  description : string;
  color : string
}.

Definition RECRUITMENT_STAGES : list StageConfig := [
  {| stage_id := new_applications;
     name := "Nowe aplikacje";
     description := "Kandydaci z przesłanymi CV, oczekują na screening";
     color := "bg-blue-100 border-blue-200 text-blue-800" |};
  {| stage_id := cv_screening;
     name := "Screening CV";
     description := "CV zostało ocenione, oczekują na AI interview";
     color := "bg-yellow-100 border-yellow-200 text-yellow-800" |};
  {| stage_id := ai_interview;
     name := "AI Interview";
     description :=
       "Zakończyli AI interview, oczekują na zadanie rekrutacyjne";
     color := "bg-purple-100 border-purple-200 text-purple-800" |};
  {| stage_id := recruitment_task;
     name := "Zadanie rekrutacyjne";
     description := "Otrzymali/ukończyli zadanie, oczekują na decyzję";
     color := "bg-orange-100 border-orange-200 text-orange-800" |};
  {| stage_id := decision;
     name := "Decyzja";
     description := "Podjęto finalną decyzję (oferta lub odrzucenie)";
     color := "bg-green-100 border-green-200 text-green-800" |}
].

Definition CHART_COLORS : list string :=
  ["#3B82F6"; "#EAB308"; "#8B5CF6"; "#F97316"; "#6366F1"; "#10B981"]%string.

(** [===] on stage names. *)
Definition stage_eqb (a b : RecruitmentStage) : bool :=
  match a, b with
  | new_applications, new_applications
  | cv_screening, cv_screening
  | ai_interview, ai_interview
  | recruitment_task, recruitment_task
  | decision, decision => true
  | _, _ => false
  end.

Record StageGroup := {
  stage : StageConfig;
  applications : list Application;
  count : nat
}.

Definition applicationsByStage (apps : list Application) : list StageGroup :=
  map (fun stage =>
         let stageApplications :=
           filter (fun app =>
                     stage_eqb (Dashboard.getApplicationStage app)
                       (stage_id stage)) apps in
         {| stage := stage;
            applications := stageApplications;
            count := List.length stageApplications |})
      RECRUITMENT_STAGES.

Definition totalApplications (apps : list Application) : nat :=
  List.length apps.

Record ChartItem := {
  item_name : string;
  value : nat;
  item_color : option string
}.

(** [xs.map((x, index) => f(x, index))], counting from [index]. *)
Fixpoint map_index {A B : Type} (f : A -> nat -> B) (index : nat)
    (xs : list A) : list B :=
  match xs with
  | [] => []
  | x :: xs' => f x index :: map_index f (S index) xs'
  end.

Definition chartData (apps : list Application) : list ChartItem :=
  filter (fun item => (0 <? value item)%nat)
    (map_index
       (fun stageGroup index =>
          {| item_name := name (stage stageGroup);
             value := count stageGroup;
             item_color :=
               JS.index CHART_COLORS
                 (index mod List.length CHART_COLORS) |})
       0 (applicationsByStage apps)).

End DashboardPage.

(** ** Notions the further statements are phrased with *)

(** Whether a string has an underscore in it. *)
Fixpoint contains_underscore (s : string) : bool :=
  match s with
  | EmptyString => false
  | String c rest => Ascii.eqb c "_"%char || contains_underscore rest
  end.


(** ** Orders

    The notions the statements on the ranking order are phrased with. *)

(** The technical score a row is ranked by. *)
Definition technicalScore (app : Application) : float :=
  JS.or_zero (total_score app).

(** [(a, b) => key(b) - key(a)] *)
Definition descending {A : Type} (key : A -> float) (a b : A) : float :=
  key b - key a.

(** [a] may stand before [b]: its key is at least that of [b]. *)
Definition not_below {A : Type} (key : A -> float) (a b : A) : Prop :=
  (key b <=? key a) = true.

(** A binary64 value above zero: finite with the sign bit clear, or plus
    infinity. *)
Definition positive_result (x : spec_float) : Prop :=
  (exists m e, x = S754_finite false m e) \/ x = S754_infinity false.

(** ** Facts about binary64 comparisons *)

Module FloatFacts.

Lemma compare_cont_Eq_refl (m : positive) : Pos.compare_cont Eq m m = Eq.
Proof. exact (Pos.compare_refl m). Qed.

Lemma SFcompare_antisym (x y : spec_float) :
  SFcompare y x = option_map CompOpp (SFcompare x y).
Proof.
  destruct x as [sx|sx| |sx mx ex], y as [sy|sy| |sy my ey];
    try reflexivity;
    try (destruct sx; reflexivity);
    try (destruct sy; reflexivity);
    try (destruct sx, sy; reflexivity).
  assert (Hm : PosDef.Pos.compare_cont Eq my mx
               = CompOpp (PosDef.Pos.compare_cont Eq mx my))
    by (symmetry; exact (Pos.compare_cont_antisym mx my Eq)).
  assert (Hz : IntDef.Z.compare ey ex = CompOpp (IntDef.Z.compare ex ey))
    by exact (Z.compare_antisym ex ey).
  destruct sx, sy; cbn [SFcompare option_map]; try reflexivity;
    rewrite Hz, Hm;
    destruct (IntDef.Z.compare ex ey); cbn [CompOpp]; try reflexivity;
    destruct (PosDef.Pos.compare_cont Eq mx my); reflexivity.
Qed.

(** Settles a goal relating [x ? y] and [y ? x] by the possible outcomes of
    comparing [x] with [y]. *)
Ltac by_comparison x y :=
  rewrite ?ltb_spec, ?leb_spec; unfold SFltb, SFleb;
  rewrite ?(SFcompare_antisym (Prim2SF x) (Prim2SF y));
  destruct (SFcompare (Prim2SF x) (Prim2SF y)) as [[ | | ]|];
  simpl; congruence.

(** [x < y] excludes [y <= x]. *)
Lemma ltb_true_leb_false (x y : float) :
  (x <? y) = true -> (y <=? x) = false.
Proof. by_comparison x y. Qed.

(** [x <= y] excludes [y < x]. *)
Lemma leb_true_ltb_false (x y : float) :
  (x <=? y) = true -> (y <? x) = false.
Proof. by_comparison x y. Qed.

(** [x < y] gives [x <= y]. *)
Lemma ltb_leb (x y : float) : (x <? y) = true -> (x <=? y) = true.
Proof. by_comparison x y. Qed.

(** A number that is at least a positive one is neither zero nor NaN. *)
Lemma above_positive_truthy (c s : float) :
  (0 <? c) = true -> (c <=? s) = true -> JS.truthy_number s = true.
Proof.
  unfold JS.truthy_number, JS.falsy_number, PrimFloat.is_nan.
  rewrite ltb_spec, leb_spec, !FloatAxioms.eqb_spec.
  change (Prim2SF 0) with (S754_zero false).
  unfold SFltb, SFleb, SFeqb.
  destruct (Prim2SF c) as [sc|sc| |sc mc ec],
    (Prim2SF s) as [ss|ss| |ss ms es];
    simpl; try discriminate;
    try (destruct sc; discriminate);
    try (destruct sc, ss; simpl; discriminate || reflexivity).
  destruct sc; try discriminate.
  destruct ss; simpl; try discriminate.
  intros _ _. rewrite Z.compare_refl, compare_cont_Eq_refl. reflexivity.
Qed.

Lemma SFcompare_defined (x y : spec_float) :
  SFeqb x x = true -> SFeqb y y = true -> SFcompare x y <> None.
Proof.
  unfold SFeqb.
  destruct x as [sx|sx| |sx mx ex], y as [sy|sy| |sy my ey];
    simpl; try discriminate; intros _ _; discriminate.
Qed.

(** On numbers, [x <= y] is the negation of [y < x]. *)
Lemma leb_negb_ltb (x y : float) :
  PrimFloat.is_nan x = false -> PrimFloat.is_nan y = false ->
  (x <=? y) = negb (y <? x).
Proof.
  unfold PrimFloat.is_nan.
  rewrite ltb_spec, leb_spec, !FloatAxioms.eqb_spec.
  intros Hx Hy. apply negb_false_iff in Hx. apply negb_false_iff in Hy.
  pose proof (SFcompare_defined _ _ Hx Hy) as Hd.
  by_comparison x y.
Qed.

(** [<=] is transitive, NaN included (it is below and above nothing). *)
Lemma SFleb_trans (x y z : spec_float) :
  SFleb x y = true -> SFleb y z = true -> SFleb x z = true.
Proof.
  unfold SFleb.
  destruct x as [sx|sx| |sx mx ex], y as [sy|sy| |sy my ey],
    z as [sz|sz| |sz mz ez]; cbn [SFcompare];
    try discriminate; try reflexivity;
    try (destruct sx, sy, sz; (discriminate || reflexivity));
    try (destruct sx, sy; (discriminate || reflexivity));
    try (destruct sx, sz; (discriminate || reflexivity));
    try (destruct sy, sz; (discriminate || reflexivity)).
  all: try (destruct sx, sy; try discriminate; try reflexivity;
            destruct sz; try discriminate; try reflexivity).
  all: try (destruct sx; try discriminate; try reflexivity;
            destruct sy, sz; try discriminate; try reflexivity).
  all: change (PosDef.Pos.compare_cont Eq mx my)
         with ((Z.pos mx ?= Z.pos my)%Z);
    change (PosDef.Pos.compare_cont Eq my mz)
      with ((Z.pos my ?= Z.pos mz)%Z);
    change (PosDef.Pos.compare_cont Eq mx mz)
      with ((Z.pos mx ?= Z.pos mz)%Z).
  all: destruct (Z.compare_spec ex ey), (Z.compare_spec ey ez),
         (Z.compare_spec ex ez); try discriminate; try reflexivity; try lia.
  all: destruct (Z.compare_spec (Z.pos mx) (Z.pos my)),
         (Z.compare_spec (Z.pos my) (Z.pos mz)),
         (Z.compare_spec (Z.pos mx) (Z.pos mz));
      cbn [CompOpp]; try discriminate; try reflexivity; try lia.
Qed.

Lemma leb_trans (a b c : float) :
  (a <=? b) = true -> (b <=? c) = true -> (a <=? c) = true.
Proof. rewrite !leb_spec. apply SFleb_trans. Qed.

Lemma twenty_truthy (s : float) :
  (20 <=? s) = true -> JS.truthy_number s = true.
Proof. apply above_positive_truthy. reflexivity. Qed.

Lemma twenty_five_truthy (s : float) :
  (25 <=? s) = true -> JS.truthy_number s = true.
Proof. apply above_positive_truthy. reflexivity. Qed.

End FloatFacts.

(** ** Binary64 subtraction and order

    The ranking page orders rows by the sign of a difference of two
    numbers.  This module relates that sign to the order of the two numbers,
    from the IEEE-754 specification of the primitive operations. *)

Module Binary64.

Local Open Scope Z_scope.

(** *** Mantissa sizes *)

Lemma digits2_pos_bounds (m : positive) :
  2 ^ (Z.pos (digits2_pos m) - 1) <= Z.pos m < 2 ^ Z.pos (digits2_pos m).
Proof.
  induction m as [m IH|m IH|]; cbn [digits2_pos].
  - rewrite Pos2Z.inj_succ.
    replace (Z.succ (Z.pos (digits2_pos m)) - 1) with
      (Z.succ (Z.pos (digits2_pos m) - 1)) by lia.
    rewrite !Z.pow_succ_r by lia. lia.
  - rewrite Pos2Z.inj_succ.
    replace (Z.succ (Z.pos (digits2_pos m)) - 1) with
      (Z.succ (Z.pos (digits2_pos m) - 1)) by lia.
    rewrite !Z.pow_succ_r by lia. lia.
  - cbn. lia.
Qed.

(** Validity of a finite binary64 value, spelled out. *)
Lemma bounded_inv (m : positive) (e : Z) :
  bounded prec emax m e = true ->
  -1074 <= e
  /\ Z.pos (digits2_pos m) <= 53
  /\ (-1074 < e -> Z.pos (digits2_pos m) = 53).
Proof.
  unfold bounded, canonical_mantissa, fexp, SpecFloat.emin, prec, emax.
  intro H. apply andb_true_iff in H. destruct H as [H _].
  apply Z.eqb_eq in H. lia.
Qed.

Lemma shl_align_value (m : positive) (e e' : Z) :
  e' <= e -> Z.pos (fst (shl_align m e e')) = Z.pos m * 2 ^ (e - e').
Proof.
  intro H. unfold shl_align.
  destruct (e' - e) as [|d|d] eqn:E; cbn [fst]; try lia.
  - replace (e - e') with 0 by lia. cbn. lia.
  - change (Pos.iter xO m d) with (shift_pos d m).
    rewrite shift_pos_correct, Z.pow_pos_fold.
    replace (e - e') with (Z.pos d) by lia. lia.
Qed.

(** Comparing two valid finite values is comparing their aligned
    mantissas. *)
Lemma finite_compare_diff (sx : bool) (mx : positive) (ex : Z)
    (sy : bool) (my : positive) (ey : Z) :
  bounded prec emax mx ex = true -> bounded prec emax my ey = true ->
  let ez := Z.min ex ey in
  SFcompare (S754_finite sy my ey) (S754_finite sx mx ex)
  = Some (0 ?= cond_Zopp sx (Z.pos (fst (shl_align mx ex ez)))
               - cond_Zopp sy (Z.pos (fst (shl_align my ey ez)))).
Proof.
  intros Bx By ez.
  rewrite !shl_align_value by (unfold ez; lia).
  apply bounded_inv in Bx, By.
  destruct Bx as (Ex & Dx & Cx), By as (Ey & Dy & Cy).
  pose proof (digits2_pos_bounds mx) as Mx.
  pose proof (digits2_pos_bounds my) as My.
  assert (Ux : Z.pos mx < 2 ^ 53).
  { eapply Z.lt_le_trans; [apply Mx|]. apply Z.pow_le_mono_r; lia. }
  assert (Uy : Z.pos my < 2 ^ 53).
  { eapply Z.lt_le_trans; [apply My|]. apply Z.pow_le_mono_r; lia. }
  assert (Px : 0 < 2 ^ (ex - ez)) by (apply Z.pow_pos_nonneg; unfold ez; lia).
  assert (Py : 0 < 2 ^ (ey - ez)) by (apply Z.pow_pos_nonneg; unfold ez; lia).
  assert (Hlt : forall m m' e e', Z.pos m' < 2 ^ 53 -> e' < e ->
                 (-1074 < e -> Z.pos (digits2_pos m) = 53) ->
                 2 ^ (Z.pos (digits2_pos m) - 1) <= Z.pos m -> -1074 <= e' ->
                 Z.pos m' * 2 ^ (e' - Z.min e e')
                 < Z.pos m * 2 ^ (e - Z.min e e')).
  { intros m m' e e' Hm' He Hc Hm He'.
    rewrite Hc in Hm by lia.
    replace (e' - Z.min e e') with 0 by lia.
    replace (e - Z.min e e') with (Z.succ (e - e' - 1)) by lia.
    rewrite Z.pow_succ_r by lia.
    assert (0 < 2 ^ (e - e' - 1)) by (apply Z.pow_pos_nonneg; lia).
    change (2 ^ (53 - 1)) with (2 ^ 52) in Hm.
    change (2 ^ 53) with (2 * 2 ^ 52) in Hm'.
    cbn [Z.pow Z.pow_pos Pos.iter] in *. nia. }
  assert (Heq : ex = ey -> 2 ^ (ex - ez) = 1 /\ 2 ^ (ey - ez) = 1).
  { intro. replace (ex - ez) with 0 by (unfold ez; lia).
    replace (ey - ez) with 0 by (unfold ez; lia). split; reflexivity. }
  pose proof (Hlt mx my ex ey Uy) as Hxy.
  pose proof (Hlt my mx ey ex Ux) as Hyx.
  rewrite (Z.min_comm ey ex) in Hyx. fold ez in Hxy, Hyx.
  clear Hlt.
  assert (Hc : PosDef.Pos.compare_cont Eq my mx = (Z.pos my ?= Z.pos mx))
    by reflexivity.
  destruct sx, sy; cbn [SFcompare cond_Zopp]; f_equal.
  - (* both negative *)
    rewrite Hc.
    destruct (Z.compare_spec ey ex) as [E|E|E].
    + destruct (Heq (eq_sym E)) as [-> ->].
      destruct (Z.compare_spec (Z.pos my) (Z.pos mx)); cbn [CompOpp];
        symmetry; [apply Z.compare_eq_iff | apply Z.compare_gt_iff
                  | apply Z.compare_lt_iff]; lia.
    + symmetry. apply Z.compare_gt_iff.
      specialize (Hxy E Cx (proj1 Mx) Ey). lia.
    + symmetry. apply Z.compare_lt_iff.
      specialize (Hyx E Cy (proj1 My) Ex). lia.
  - symmetry. apply Z.compare_gt_iff. nia.
  - symmetry. apply Z.compare_lt_iff. nia.
  - rewrite Hc.
    destruct (Z.compare_spec ey ex) as [E|E|E].
    + destruct (Heq (eq_sym E)) as [-> ->].
      destruct (Z.compare_spec (Z.pos my) (Z.pos mx));
        symmetry; [apply Z.compare_eq_iff | apply Z.compare_lt_iff
                  | apply Z.compare_gt_iff]; lia.
    + symmetry. apply Z.compare_lt_iff.
      specialize (Hxy E Cx (proj1 Mx) Ey). lia.
    + symmetry. apply Z.compare_gt_iff.
      specialize (Hyx E Cy (proj1 My) Ex). lia.
Qed.

(** *** Rounding keeps the sign *)

Lemma shr_1_digits (r : shr_record) (p : positive) :
  shr_m r = Z.pos p -> 1 < Z.pos (digits2_pos p) ->
  exists q, shr_m (shr_1 r) = Z.pos q
            /\ Z.pos (digits2_pos q) = Z.pos (digits2_pos p) - 1.
Proof.
  destruct r as [m rb sb]. cbn [shr_m]. intros -> H.
  destruct p as [p|p|]; cbn [digits2_pos] in *.
  - exists p. split; [reflexivity | rewrite Pos2Z.inj_succ; lia].
  - exists p. split; [reflexivity | rewrite Pos2Z.inj_succ; lia].
  - lia.
Qed.

Lemma iter_shr_1_digits (n : positive) :
  forall (r : shr_record) (p : positive),
    shr_m r = Z.pos p -> Z.pos n < Z.pos (digits2_pos p) ->
    exists q, shr_m (SpecFloat.iter_pos shr_1 n r) = Z.pos q
              /\ Z.pos (digits2_pos q) = Z.pos (digits2_pos p) - Z.pos n.
Proof.
  induction n as [n IH|n IH|]; intros r p Hr Hn; cbn [SpecFloat.iter_pos].
  - destruct (@shr_1_digits r p Hr ltac:(lia)) as (q1 & H1 & D1).
    destruct (IH _ _ H1 ltac:(lia)) as (q2 & H2 & D2).
    destruct (IH _ _ H2 ltac:(lia)) as (q3 & H3 & D3).
    exists q3. split; [exact H3 | lia].
  - destruct (IH _ _ Hr ltac:(lia)) as (q2 & H2 & D2).
    destruct (IH _ _ H2 ltac:(lia)) as (q3 & H3 & D3).
    exists q3. split; [exact H3 | lia].
  - apply shr_1_digits; assumption.
Qed.

Lemma shr_fexp_positive (p : positive) (e : Z) (l : location) :
  -1074 <= e ->
  exists q, shr_m (fst (shr_fexp prec emax (Z.pos p) e l)) = Z.pos q
            /\ -1074 <= snd (shr_fexp prec emax (Z.pos p) e l).
Proof.
  intro He. unfold shr_fexp, shr, fexp, SpecFloat.emin, prec, emax.
  cbn [Zdigits2].
  assert (Hm : shr_m (shr_record_of_loc (Z.pos p) l) = Z.pos p)
    by (destruct l as [|[ | | ]]; reflexivity).
  destruct (Z.max (Z.pos (digits2_pos p) + e - 53) (3 - 1024 - 53) - e)
    as [|n|n] eqn:E; cbn [fst snd].
  - exists p. split; [exact Hm | exact He].
  - destruct (@iter_shr_1_digits n _ _ Hm ltac:(lia)) as (q & Hq & _).
    exists q. split; [exact Hq | lia].
  - exists p. split; [exact Hm | exact He].
Qed.

Lemma round_nearest_even_positive (q : positive) (l : location) :
  exists q', round_nearest_even (Z.pos q) l = Z.pos q'.
Proof.
  destruct l as [|[ | | ]]; cbn [round_nearest_even].
  - eauto.
  - destruct (Z.even (Z.pos q)); [eauto|]. exists (q + 1)%positive. reflexivity.
  - eauto.
  - exists (q + 1)%positive. reflexivity.
Qed.

Lemma binary_round_aux_positive (p : positive) (e : Z) (l : location) :
  -1074 <= e ->
  positive_result (binary_round_aux prec emax false (Z.pos p) e l).
Proof.
  intro He. unfold binary_round_aux.
  destruct (@shr_fexp_positive p e l He) as (q1 & H1 & E1).
  destruct (shr_fexp prec emax (Z.pos p) e l) as [mrs1 e1].
  cbn [fst snd] in H1, E1. rewrite H1.
  destruct (round_nearest_even_positive q1 (loc_of_shr_record mrs1))
    as (q2 & ->).
  destruct (@shr_fexp_positive q2 e1 loc_Exact E1) as (q3 & H3 & E3).
  destruct (shr_fexp prec emax (Z.pos q2) e1 loc_Exact) as [mrs2 e2].
  cbn [fst snd] in H3, E3. rewrite H3.
  destruct (e2 <=? emax - prec); [left; eauto | right; reflexivity].
Qed.

Lemma binary_round_positive (p : positive) (e : Z) :
  -1074 <= e -> positive_result (binary_round prec emax false p e).
Proof.
  intro He. unfold binary_round.
  destruct (shl_align p e (fexp prec emax (Z.pos (digits2_pos p) + e)))
    as [mz ez] eqn:E.
  apply binary_round_aux_positive.
  revert E. unfold shl_align, fexp, SpecFloat.emin, prec, emax.
  destruct (Z.max (Z.pos (digits2_pos p) + e - 53) (3 - 1024 - 53) - e);
    intro E; injection E as _ <-; lia.
Qed.

Lemma binary_round_negative (p : positive) (e : Z) :
  SFltb (S754_zero false) (binary_round prec emax true p e) = false.
Proof.
  unfold binary_round.
  destruct (shl_align p e (fexp prec emax (Z.pos (digits2_pos p) + e)))
    as [mz ez].
  unfold binary_round_aux.
  destruct (shr_fexp prec emax (Z.pos mz) ez loc_Exact) as [mrs1 e1].
  destruct (shr_fexp prec emax
              (round_nearest_even (shr_m mrs1) (loc_of_shr_record mrs1))
              e1 loc_Exact) as [mrs2 e2].
  destruct (shr_m mrs2); [reflexivity| |reflexivity].
  destruct (e2 <=? emax - prec); reflexivity.
Qed.

(** The sign of a normalised integer is the sign of the result. *)
Lemma binary_normalize_sign (z e : Z) :
  -1074 <= e ->
  SFltb (S754_zero false) (binary_normalize prec emax z e false) = (0 <? z).
Proof.
  intro He. destruct z as [|p|p]; cbn [binary_normalize].
  - reflexivity.
  - destruct (@binary_round_positive p e He) as [(m & e' & ->)| ->];
      reflexivity.
  - apply binary_round_negative.
Qed.

(** *** Subtraction and order *)

Lemma SFsub_sign (x y : spec_float) :
  valid_binary x = true -> valid_binary y = true ->
  x <> S754_nan -> y <> S754_nan ->
  SFltb (S754_zero false) (SFsub prec emax x y) = SFltb y x.
Proof.
  intros Vx Vy Nx Ny.
  destruct x as [sx|sx| |sx mx ex], y as [sy|sy| |sy my ey];
    try congruence;
    try (destruct sx, sy; reflexivity);
    try (destruct sx; reflexivity);
    try (destruct sy; reflexivity).
  cbn [valid_binary] in Vx, Vy. cbn [SFsub].
  unfold SFltb at 2. rewrite (@finite_compare_diff sx mx ex sy my ey Vx Vy).
  rewrite binary_normalize_sign.
  - unfold Z.ltb. reflexivity.
  - apply bounded_inv in Vx, Vy. lia.
Qed.

Lemma not_nan_SF (a : float) :
  PrimFloat.is_nan a = false -> Prim2SF a <> S754_nan.
Proof.
  unfold PrimFloat.is_nan. rewrite FloatAxioms.eqb_spec.
  intros H E. rewrite E in H. discriminate.
Qed.

(** On numbers, [b - a > 0] exactly when [a < b]. *)
Lemma sub_positive (a b : float) :
  PrimFloat.is_nan a = false -> PrimFloat.is_nan b = false ->
  (0 <? b - a)%float = (a <? b)%float.
Proof.
  intros Ha Hb. rewrite !ltb_spec, sub_spec.
  change (Prim2SF 0) with (S754_zero false).
  apply SFsub_sign; auto using Prim2SF_valid, not_nan_SF.
Qed.

End Binary64.

(** ** Shared lemmas on the page functions *)

Lemma ranking_scores_shape (app : Application) :
  Ranking.calculateCombinedScore app
  = Spec.combine (JS.or_zero (total_score app))
      (option_map Spec.mean (assessment_of (Ranking.latest_interview app))).
Proof.
  unfold Ranking.calculateCombinedScore, Spec.combine, Spec.mean.
  destruct (assessment_of (Ranking.latest_interview app)); reflexivity.
Qed.

Lemma profile_scores_shape (app : Application) :
  Profile.calculateScores app
  = Spec.combine (JS.or_zero (total_score app))
      (option_map Spec.mean (assessment_of (Profile.first_interview app))).
Proof.
  unfold Profile.calculateScores, Spec.combine, Spec.mean.
  destruct (assessment_of (Profile.first_interview app)); reflexivity.
Qed.

(** The three copies of the stage derivation are the same function. *)
Lemma stage_copies_agree (app : Application) :
  Profile.getApplicationStage app = Candidates.getApplicationStage app
  /\ Dashboard.getApplicationStage app = Candidates.getApplicationStage app.
Proof. split; reflexivity. Qed.

(** What [getInterviewScore] returns, case by case. *)
Lemma getInterviewScore_cases (i : Interview) :
  match assessment_of (Some i) with
  | None => Ranking.getInterviewScore i = None
  | Some [] => Ranking.getInterviewScore i = None
  | Some (c :: a) => Ranking.getInterviewScore i = Some (Spec.mean (c :: a))
  end.
Proof.
  unfold Ranking.getInterviewScore.
  destruct (assessment_of (Some i)) as [[|c a]|]; reflexivity.
Qed.


(** ** The combined ranking score *)

(** The score triple a page builds from the technical score [t] and the
    interview it reads is the specified combination of [t] with the score
    [getInterviewScore] gives for that interview, unless the assessment of
    the interview is an empty mapping. *)
Lemma scores_of_interview_score (t : float) (iv : option Interview) :
  {| technical := t;
     softSkills :=
       match assessment_of iv with
       | Some a =>
           (JS.reduce_add (Object_values a)
              / JS.number_of_nat (List.length (Object_values a))) * 10
       | None => 0
       end;
     combined :=
       t * 0.65
       + match assessment_of iv with
         | Some a =>
             (JS.reduce_add (Object_values a)
                / JS.number_of_nat (List.length (Object_values a))) * 10
         | None => 0
         end * 0.35 |}
  = Spec.combine t (Ranking.getInterviewScore_of iv)
  <-> assessment_of iv <> Some [].
Proof.
  unfold Ranking.getInterviewScore_of, Ranking.getInterviewScore, Spec.combine.
  destruct iv as [i|]; [|split; [discriminate | reflexivity]].
  destruct (assessment_of (Some i)) as [[|c a]|].
  - split; [|intros H; exfalso; apply H; reflexivity].
    intros H _. apply (f_equal softSkills) in H. vm_compute in H.
    discriminate H.
  - split; [discriminate | reflexivity].
  - split; [discriminate | reflexivity].
Qed.

(** C1: what the code does with the combination rule.  On both pages the
    triple satisfies [combined = technical * 0.65 + softSkills * 0.35] with
    [technical = total_score || 0], and it is the specified combination of
    the technical score with the soft-skill score of the interview the page
    reads (the page's own [getInterviewScore]: a number, or nothing, which
    counts as 0; times 10) exactly when the assessment of that interview is
    not an empty mapping; 80 with no soft-skill score gives 52, and 80 with
    a score of 8 gives 80.  For an interview whose assessment is the empty
    mapping the soft-skill score is absent, so the rule gives 52 for a
    technical score of 80, but both pages compute NaN. *)
Theorem combined_score_formula_fails_on_empty_assessment :
  (forall app : Application,
      let r := Ranking.calculateCombinedScore app in
      let p := Profile.calculateScores app in
      technical r = JS.or_zero (total_score app)
      /\ combined r = technical r * 0.65 + softSkills r * 0.35
      /\ technical p = JS.or_zero (total_score app)
      /\ combined p = technical p * 0.65 + softSkills p * 0.35)
  /\ (forall app : Application,
         Ranking.calculateCombinedScore app
         = Spec.combine (JS.or_zero (total_score app))
             (Ranking.getInterviewScore_of (Ranking.latest_interview app))
         <-> assessment_of (Ranking.latest_interview app) <> Some [])
  /\ (forall app : Application,
         Profile.calculateScores app
         = Spec.combine (JS.or_zero (total_score app))
             (Ranking.getInterviewScore_of (Profile.first_interview app))
         <-> assessment_of (Profile.first_interview app) <> Some [])
  /\ combined (Spec.combine 80 None) = 52
  /\ combined (Spec.combine 80 (Some 8)) = 80
  /\ (let a0 := Samples.application_with (Some 80) None None [] in
      combined (Ranking.calculateCombinedScore a0) = 52
      /\ combined (Profile.calculateScores a0) = 52)
  /\ (let a8 := Samples.application_with (Some 80) None None
                  [Samples.scored 8] in
      Ranking.getInterviewScore_of (Ranking.latest_interview a8) = Some 8
      /\ combined (Ranking.calculateCombinedScore a8) = 80
      /\ combined (Profile.calculateScores a8) = 80)
  /\ (let app := Samples.application_with (Some 80) None None
                   [Samples.interview_with "completed" (Some [])] in
      Ranking.getInterviewScore_of (Ranking.latest_interview app) = None
      /\ Ranking.getInterviewScore_of (Profile.first_interview app) = None
      /\ Spec.combine (JS.or_zero (total_score app)) None
         = {| technical := 80; softSkills := 0; combined := 52 |}
      /\ Ranking.calculateCombinedScore app
         = {| technical := 80; softSkills := nan; combined := nan |}
      /\ Profile.calculateScores app
         = {| technical := 80; softSkills := nan; combined := nan |}
      /\ combined (Ranking.calculateCombinedScore app) <> 52
      /\ combined (Profile.calculateScores app) <> 52).
Proof.
  split; [|split; [|split]].
  - intro app. cbv zeta. repeat split.
  - intro app.
    apply (scores_of_interview_score (JS.or_zero (total_score app))
             (Ranking.latest_interview app)).
  - intro app.
    apply (scores_of_interview_score (JS.or_zero (total_score app))
             (Profile.first_interview app)).
  - cbv zeta. repeat split; vm_compute; discriminate.
Qed.

(** ** Pipeline stage derivation *)

Lemma stage_decision_iff (app : Application) :
  Candidates.getApplicationStage app = decision
  <-> JS.truthy_num (total_score app) = true
      /\ (exists i l, interviews app = Some (i :: l))
      /\ JS.truthy_str (recruitment_task_status app) = true
      /\ JS.truthy_str (candidate_decision app) = true.
Proof.
  unfold Candidates.getApplicationStage.
  destruct (JS.truthy_num (total_score app)); cbn [negb].
  2: { split; [discriminate | intros [H _]; discriminate]. }
  destruct (interviews app) as [[|i l]|].
  1, 3: split; [discriminate | intros (_ & (i & l & H) & _); discriminate].
  destruct (JS.truthy_str (recruitment_task_status app)); cbn [negb].
  2: { split; [discriminate | intros (_ & _ & H & _); discriminate]. }
  destruct (JS.truthy_str (candidate_decision app)).
  - split; [intros _; repeat split; eauto | reflexivity].
  - split; [discriminate | intros (_ & _ & _ & H); discriminate].
Qed.

(** C2, as stated, fails: an application with a score, an interview and a
    decision, but no recruitment task, is shown in the interview stage. *)
Lemma decision_without_task_is_ai_interview :
  let app := Samples.application_with (Some 70) None (Some "offered"%string)
               [Samples.interview_with "completed" None] in
  candidate_decision app = Some "offered"%string
  /\ recruitment_task_status app = None
  /\ Candidates.getApplicationStage app = ai_interview
  /\ Profile.getApplicationStage app = ai_interview
  /\ Dashboard.getApplicationStage app = ai_interview
  /\ Candidates.getApplicationStage app <> decision.
Proof. cbv zeta. repeat split. discriminate. Qed.

(** C2, amended: for an application whose score is absent or a number
    other than zero, the derived stage is [decision] exactly when the score
    is present, there is at least one interview, the recruitment task
    status is set and a decision is present.  The decision is checked
    before the [recruitment_task] stage only: with a decision present, an
    application with interviews and no task status is derived as
    [ai_interview], one with a score and no interviews as [cv_screening],
    and one without a score as [new_applications].  The three pages
    agree. *)
Theorem decision_stage_characterised :
  forall app : Application,
    (forall s, total_score app = Some s -> JS.falsy_number s = false) ->
    (Candidates.getApplicationStage app = decision
     <-> total_score app <> None
         /\ (exists i l, interviews app = Some (i :: l))
         /\ JS.truthy_str (recruitment_task_status app) = true
         /\ JS.truthy_str (candidate_decision app) = true)
    /\ (JS.truthy_str (candidate_decision app) = true ->
        (total_score app <> None ->
         (exists i l, interviews app = Some (i :: l)) ->
         JS.truthy_str (recruitment_task_status app) = false ->
         Candidates.getApplicationStage app = ai_interview)
        /\ (total_score app <> None ->
            interviews app = Some [] \/ interviews app = None ->
            Candidates.getApplicationStage app = cv_screening)
        /\ (total_score app = None ->
            Candidates.getApplicationStage app = new_applications))
    /\ Profile.getApplicationStage app = Candidates.getApplicationStage app
    /\ Dashboard.getApplicationStage app = Candidates.getApplicationStage app.
Proof.
  intros app Hs.
  assert (Ht : JS.truthy_num (total_score app) = true
               <-> total_score app <> None).
  { unfold JS.truthy_num, JS.truthy_number.
    destruct (total_score app) as [s|].
    - rewrite (Hs s eq_refl). split; [discriminate | reflexivity].
    - split; [discriminate | congruence]. }
  split; [|split; [|apply stage_copies_agree]].
  - rewrite stage_decision_iff, Ht. reflexivity.
  - intros _. unfold Candidates.getApplicationStage. repeat split.
    + intros Hn (i & l & Hi) Hr. apply Ht in Hn.
      rewrite Hn, Hi, Hr. reflexivity.
    + intros Hn Hi. apply Ht in Hn. rewrite Hn.
      destruct Hi as [Hi|Hi]; rewrite Hi; reflexivity.
    + intros Hn. rewrite Hn. reflexivity.
Qed.

Lemma decision_stage_characterised_witness :
  let app := Samples.application_with (Some 70) (Some "task_sent"%string)
               (Some "offered"%string)
               [Samples.interview_with "completed" None] in
  (forall s, total_score app = Some s -> JS.falsy_number s = false)
  /\ Candidates.getApplicationStage app = decision.
Proof.
  cbv zeta.
  assert (Hs : forall s,
             total_score
               (Samples.application_with (Some 70) (Some "task_sent"%string)
                  (Some "offered"%string)
                  [Samples.interview_with "completed" None]) = Some s ->
             JS.falsy_number s = false).
  { intros s E. injection E as <-. reflexivity. }
  split; [exact Hs|].
  apply (proj1 (decision_stage_characterised _ Hs)).
  split; [discriminate|].
  split; [do 2 eexists; reflexivity|].
  split; reflexivity.
Defined.

Lemma stage_new_iff (app : Application) :
  Candidates.getApplicationStage app = new_applications
  <-> JS.truthy_num (total_score app) = false.
Proof.
  unfold Candidates.getApplicationStage.
  destruct (JS.truthy_num (total_score app)); cbn [negb].
  - split; [|discriminate].
    destruct (interviews app) as [[|i l]|]; try discriminate.
    destruct (JS.truthy_str (recruitment_task_status app)); cbn [negb];
      try discriminate.
    destruct (JS.truthy_str (candidate_decision app)); discriminate.
  - split; reflexivity.
Qed.

(** C3: what the code does with a technical score of zero.  The stage is
    [new_applications] exactly when the score is falsy, so a scored
    application whose score is 0 is still derived as a new application on
    all three pages, where the claim expects [cv_screening]. *)
Theorem zero_score_is_new_application :
  (forall app : Application,
      Candidates.getApplicationStage app = new_applications
      <-> JS.truthy_num (total_score app) = false)
  /\ (let app := Samples.application_with (Some 0) None None [] in
      total_score app <> None
      /\ Candidates.getApplicationStage app = new_applications
      /\ Profile.getApplicationStage app = new_applications
      /\ Dashboard.getApplicationStage app = new_applications)
  /\ (let app := Samples.application_with (Some 70) None None [] in
      Candidates.getApplicationStage app = cv_screening).
Proof.
  split; [exact stage_new_iff|]. cbv zeta. repeat split. discriminate.
Qed.

(** ** Which interview is scored *)

Lemma index_last {A : Type} (l : list A) (x : A) :
  JS.index (l ++ [x]) (List.length (l ++ [x]) - 1) = Some x.
Proof.
  unfold JS.index. rewrite length_app. cbn [List.length].
  replace (List.length l + 1 - 1)%nat with (List.length l) by lia.
  rewrite nth_error_app2 by lia. rewrite Nat.sub_diag. reflexivity.
Qed.

Lemma latest_interview_snoc (app : Application) (l : list Interview)
    (x : Interview) :
  interviews app = Some (l ++ [x]) -> Ranking.latest_interview app = Some x.
Proof.
  intro H. unfold Ranking.latest_interview. rewrite H.
  rewrite index_last. rewrite length_app. cbn [List.length].
  destruct (Nat.ltb_spec 0 (List.length l + 1)); [reflexivity | lia].
Qed.

Lemma first_interview_cons (app : Application) (x : Interview)
    (l : list Interview) :
  interviews app = Some (x :: l) -> Profile.first_interview app = Some x.
Proof. intro H. unfold Profile.first_interview. rewrite H. reflexivity. Qed.

(** C4: what the code does with two interviews.  The ranking page scores
    the last interview of the list and the profile page the first one, so
    for an application whose first interview averaged 2 and whose retake
    averaged 8 the two pages show different soft-skill and combined
    scores. *)
Theorem pages_score_different_interviews :
  (forall i s t d l x,
      Ranking.latest_interview
        {| id := i; total_score := s; recruitment_task_status := t;
           candidate_decision := d; interviews := Some (l ++ [x]) |} = Some x)
  /\ (forall i s t d l x,
         Profile.first_interview
           {| id := i; total_score := s; recruitment_task_status := t;
              candidate_decision := d; interviews := Some (x :: l) |} = Some x)
  /\ (let first := Samples.scored 2 in
      let retake := Samples.scored 8 in
      let app :=
        Samples.application_with (Some 80) None None [first; retake] in
      Ranking.latest_interview app = Some retake
      /\ Profile.first_interview app = Some first
      /\ Ranking.calculateCombinedScore app
         = {| technical := 80; softSkills := 80; combined := 80 |}
      /\ Profile.calculateScores app
         = {| technical := 80; softSkills := 20; combined := 59 |}
      /\ Ranking.calculateCombinedScore app <> Profile.calculateScores app).
Proof.
  split; [|split].
  - intros. apply (@latest_interview_snoc _ l x). reflexivity.
  - intros. reflexivity.
  - cbv zeta. repeat split. vm_compute. discriminate.
Qed.

(** ** Soft-skill aggregation *)

(** C5: what the code does with an empty assessment.  [getInterviewScore]
    behaves as claimed: nothing for an absent or an empty mapping, the mean
    otherwise (5 for [{a: 10, b: 0}]).  The score computation of the ranking
    page repeats the aggregation without the emptiness guard: for an empty
    mapping it divides 0 by 0, and the soft-skill and combined scores are
    NaN. *)
Theorem empty_assessment_yields_nan :
  (forall i : Interview,
      match assessment_of (Some i) with
      | None => Ranking.getInterviewScore i = None
      | Some [] => Ranking.getInterviewScore i = None
      | Some (c :: a) => Ranking.getInterviewScore i = Some (Spec.mean (c :: a))
      end)
  /\ Ranking.getInterviewScore (Samples.interview_with "completed" (Some []))
     = None
  /\ Ranking.getInterviewScore (Samples.interview_with "completed" None) = None
  /\ Ranking.getInterviewScore
       (Samples.interview_with "completed"
          (Some [("a"%string, 10); ("b"%string, 0)])) = Some 5
  /\ (let app := Samples.application_with (Some 80) None None
                   [Samples.interview_with "completed" (Some [])] in
      Ranking.calculateCombinedScore app
      = {| technical := 80; softSkills := nan; combined := nan |}
      /\ Profile.calculateScores app
         = {| technical := 80; softSkills := nan; combined := nan |}
      /\ Ranking.getRecommendationBadge app = Recommended).
Proof.
  split; [exact getInterviewScore_cases|]. cbv zeta. repeat split.
Qed.

(** ** Recommendation bands *)

(** The ranking page draws the bands as specified whenever the combined
    score is a number. *)
Lemma ranking_bands (app : Application) :
  let c := combined (Ranking.calculateCombinedScore app) in
  PrimFloat.is_nan c = false ->
  (Ranking.getRecommendationBadge app = NotRecommended <-> (c <=? 20) = true)
  /\ (Ranking.getRecommendationBadge app = SemiRecommended
      <-> (20 <? c) = true /\ (c <=? 50) = true)
  /\ (Ranking.getRecommendationBadge app = Recommended <-> (50 <? c) = true).
Proof.
  intros c Hc. unfold Ranking.getRecommendationBadge. fold c.
  assert (H20 : (c <=? 20) = negb (20 <? c))
    by (apply FloatFacts.leb_negb_ltb; [exact Hc | reflexivity]).
  assert (H50 : (c <=? 50) = negb (50 <? c))
    by (apply FloatFacts.leb_negb_ltb; [exact Hc | reflexivity]).
  assert (H : (50 <? c) = true -> (20 <? c) = true).
  { intro G. destruct (20 <? c) eqn:E; [reflexivity|].
    assert (L : (c <=? 20) = true) by (rewrite H20; reflexivity).
    clear - G L. revert G L. rewrite ltb_spec, leb_spec.
    replace (Prim2SF 50) with (S754_finite false 7036874417766400 (-47))
      by (vm_compute; reflexivity).
    replace (Prim2SF 20) with (S754_finite false 5629499534213120 (-48))
      by (vm_compute; reflexivity).
    unfold SFltb, SFleb.
    destruct (Prim2SF c) as [sc|sc| |sc mc ec]; cbn [SFcompare];
      try discriminate; try (destruct sc; discriminate).
    destruct sc; try discriminate.
    destruct (Z.compare_spec (-47) ec), (Z.compare_spec ec (-48));
      try discriminate; lia. }
  rewrite H20, H50.
  destruct (20 <? c), (50 <? c); cbn [negb]; repeat split; intros;
    try discriminate; try reflexivity;
    try (match goal with G : _ /\ _ |- _ => destruct G; discriminate end);
    try (specialize (H eq_refl); discriminate).
Qed.

(** C6: what the code does at the band boundaries.  At a combined score of
    exactly 50 the ranking page says semi-recommended and the profile page
    recommended; at exactly 20 the ranking page says not recommended and the
    profile page semi-recommended. *)
Theorem band_boundaries_differ :
  (let app := Samples.application_with (Some 50) None None
                [Samples.scored 5] in
   combined (Ranking.calculateCombinedScore app) = 50
   /\ combined (Profile.calculateScores app) = 50
   /\ Ranking.getRecommendationBadge app = SemiRecommended
   /\ Profile.recommendation (Profile.calculateScores app) = Recommended)
  /\ (let app := Samples.application_with (Some 20) None None
                   [Samples.scored 2] in
      combined (Ranking.calculateCombinedScore app) = 20
      /\ combined (Profile.calculateScores app) = 20
      /\ Ranking.getRecommendationBadge app = NotRecommended
      /\ Profile.recommendation (Profile.calculateScores app)
         = SemiRecommended).
Proof. cbv zeta. repeat split. Qed.

(** ** Gates *)

Lemma canSend_iff (app : Application) :
  Ranking.canSend (Ranking.getTaskStatus app) = true
  <-> (50 <=? combined (Ranking.calculateCombinedScore app)) = true
      /\ recruitment_task_status app <> Some "task_sent"%string
      /\ recruitment_task_status app <> Some "task_completed"%string.
Proof.
  unfold Ranking.getTaskStatus.
  destruct (50 <=? combined (Ranking.calculateCombinedScore app)); cbn [negb].
  2: { cbn. split; [discriminate | intros [H _]; discriminate]. }
  destruct (recruitment_task_status app) as [s|].
  2: { cbn. repeat split; discriminate. }
  destruct (String.eqb_spec s "") as [->|_].
  { cbn. repeat split; discriminate. }
  destruct (String.eqb_spec s "task_sent") as [->|Hs].
  { cbn. split; [discriminate | intros (_ & H & _); congruence]. }
  destruct (String.eqb_spec s "task_completed") as [->|Hc].
  { cbn. split; [discriminate | intros (_ & _ & H); congruence]. }
  cbn. repeat split; congruence.
Qed.

(** Below 50 the task cannot be sent, whatever the status column holds. *)
Lemma cannot_send_below_50 (app : Application) :
  (combined (Ranking.calculateCombinedScore app) <? 50) = true ->
  Ranking.canSend (Ranking.getTaskStatus app) = false.
Proof.
  intro H. apply FloatFacts.ltb_true_leb_false in H.
  unfold Ranking.getTaskStatus. rewrite H. reflexivity.
Qed.

(** C7: for an application whose task status is one of the documented
    values (null, task_sent, task_completed), the recruitment task can be
    sent exactly when the combined score is at least 50 and the status is
    null; it cannot be sent when the combined score is below 50, nor once
    the status is task_sent or task_completed; and at a combined score of
    exactly 50 with no task sent it can. *)
Theorem can_send_recruitment_task :
  forall app : Application,
    Spec.valid_task_status (recruitment_task_status app) ->
    let c := combined (Ranking.calculateCombinedScore app) in
    (Ranking.canSend (Ranking.getTaskStatus app) = true
     <-> (50 <=? c) = true /\ recruitment_task_status app = None)
    /\ ((c <? 50) = true -> Ranking.canSend (Ranking.getTaskStatus app) = false)
    /\ (recruitment_task_status app = Some "task_sent"%string
        \/ recruitment_task_status app = Some "task_completed"%string ->
        Ranking.canSend (Ranking.getTaskStatus app) = false)
    /\ (let at50 t := Samples.application_with (Some 50) t None
                        [Samples.scored 5] in
        combined (Ranking.calculateCombinedScore (at50 None)) = 50
        /\ Ranking.canSend (Ranking.getTaskStatus (at50 None)) = true
        /\ Ranking.canSend
             (Ranking.getTaskStatus (at50 (Some "task_sent"%string))) = false
        /\ Ranking.canSend
             (Ranking.getTaskStatus (at50 (Some "task_completed"%string)))
           = false).
Proof.
  intros app Hv c. split; [|split; [|split]].
  - rewrite canSend_iff. fold c. split.
    + intros (H & Hs & Hc). split; [exact H|].
      destruct Hv as [Hv|[Hv|Hv]]; congruence.
    + intros (H & Hn). rewrite Hn. repeat split; congruence.
  - apply cannot_send_below_50.
  - intro H. destruct (Ranking.canSend (Ranking.getTaskStatus app)) eqn:E;
      [|reflexivity].
    apply canSend_iff in E. destruct E as (_ & Hs & Hc).
    destruct H; contradiction.
  - cbv zeta. repeat split.
Qed.

Lemma can_send_recruitment_task_witness :
  let app := Samples.application_with (Some 50) None None
               [Samples.scored 5] in
  Spec.valid_task_status (recruitment_task_status app)
  /\ Ranking.canSend (Ranking.getTaskStatus app) = true.
Proof.
  cbv zeta.
  assert (Hv : Spec.valid_task_status
                 (recruitment_task_status
                    (Samples.application_with (Some 50) None None
                       [Samples.scored 5])))
    by (left; reflexivity).
  split; [exact Hv|].
  apply (proj1 (can_send_recruitment_task _ Hv)).
  split; reflexivity.
Defined.

Lemma getInterviewStatus_snoc (l : list Interview) (x : Interview) :
  Ranking.hasData (Ranking.getInterviewStatus (Some (l ++ [x])))
  = String.eqb (status x) "completed".
Proof.
  assert (H : Ranking.getInterviewStatus (Some (l ++ [x]))
              = match JS.index (l ++ [x]) (List.length (l ++ [x]) - 1) with
                | None => {| Ranking.label := Ranking.UnknownStatus;
                             Ranking.hasData := false;
                             Ranking.interview := None |}
                | Some latestInterview =>
                    if String.eqb (status latestInterview) "completed" then
                      {| Ranking.label := Ranking.Completed;
                         Ranking.hasData := true;
                         Ranking.interview := Some latestInterview |}
                    else if String.eqb (status latestInterview) "scheduled" then
                      {| Ranking.label := Ranking.Scheduled;
                         Ranking.hasData := false;
                         Ranking.interview := None |}
                    else if String.eqb (status latestInterview) "in_progress"
                    then
                      {| Ranking.label := Ranking.InProgress;
                         Ranking.hasData := false;
                         Ranking.interview := None |}
                    else
                      {| Ranking.label := Ranking.UnknownStatus;
                         Ranking.hasData := false;
                         Ranking.interview := None |}
                end)
    by (destruct l; reflexivity).
  rewrite H, index_last.
  destruct (String.eqb (status x) "completed"); [reflexivity|].
  destruct (String.eqb (status x) "scheduled"); [reflexivity|].
  destruct (String.eqb (status x) "in_progress"); reflexivity.
Qed.

(** Interview data is available exactly when the last interview of the list
    is completed. *)
Lemma hasData_iff (ivs : option (list Interview)) :
  Ranking.hasData (Ranking.getInterviewStatus ivs) = true
  <-> exists l i, ivs = Some (l ++ [i]) /\ status i = "completed"%string.
Proof.
  destruct ivs as [l|].
  2: { cbn. split; [discriminate | intros (l & i & H & _); discriminate]. }
  induction l as [|a l _] using rev_ind.
  { cbn. split; [discriminate|].
    intros (l & i & H & _). destruct l; discriminate. }
  rewrite getInterviewStatus_snoc. split.
  - intro H. exists l, a. split; [reflexivity|]. apply String.eqb_eq, H.
  - intros (l' & i & H & Hs). injection H as H.
    apply app_inj_tail in H. destruct H as [_ ->].
    apply String.eqb_eq, Hs.
Qed.

(** C8, as stated, fails: an application whose only interview is merely
    scheduled (or in progress) is still offered the interview button. *)
Lemma scheduled_interview_still_eligible :
  let app st := Samples.application_with (Some 70) None None
                  [Samples.interview_with st None] in
  interviews (app "scheduled"%string) <> Some []
  /\ Ranking.showInterviewButton (app "scheduled"%string) = true
  /\ Ranking.showInterviewButton (app "in_progress"%string) = true
  /\ Ranking.showInterviewButton (app "completed"%string) = false.
Proof. cbv zeta. repeat split. discriminate. Qed.

(** C8, amended: the interview button is offered exactly when the technical
    score is present and at least 20 and the most recent interview, if there
    is one, is not completed. *)
Theorem interview_eligibility_characterised :
  forall app : Application,
    Ranking.showInterviewButton app = true
    <-> (exists s, total_score app = Some s /\ (20 <=? s) = true)
        /\ ~ (exists l i, interviews app = Some (l ++ [i])
                         /\ status i = "completed"%string).
Proof.
  intro app. rewrite <- hasData_iff. unfold Ranking.showInterviewButton.
  destruct (total_score app) as [s|].
  2: { split; [discriminate | intros [(s & H & _) _]; discriminate]. }
  destruct (20 <=? s) eqn:E20.
  - rewrite (FloatFacts.twenty_truthy E20). cbn [andb].
    destruct (Ranking.hasData (Ranking.getInterviewStatus (interviews app)));
      cbn [negb].
    + split; [discriminate | intros [_ H]; exfalso; apply H; reflexivity].
    + split; [|reflexivity]. intros _. split; [eauto | discriminate].
  - rewrite andb_false_r. cbn [andb]. split; [discriminate|].
    intros [(s' & H & H') _]. injection H as <-. congruence.
Qed.

(** C9: what the code does between 20 and 25.  The qualification badge
    reports a candidate as qualified exactly when the score is at least 25,
    so a score of 22 is shown as not qualifying although it passes the
    threshold of 20 that the page states and that the interview button on
    the same card applies. *)
Theorem qualification_threshold_is_25 :
  (forall score : option float,
      Ranking.getQualificationStatus score = Ranking.Qualifies
      <-> exists s, score = Some s /\ (25 <=? s) = true)
  /\ (20 <=? 22) = true
  /\ Ranking.getQualificationStatus (Some 22) = Ranking.DoesNotQualify
  /\ Ranking.showInterviewButton
       (Samples.application_with (Some 22) None None []) = true
  /\ Ranking.getQualificationStatus (Some 25) = Ranking.Qualifies.
Proof.
  split; [|repeat split].
  intros [s|]; cbn [Ranking.getQualificationStatus].
  2: { split; [discriminate | intros (s & H & _); discriminate]. }
  destruct (25 <=? s) eqn:E.
  - pose proof (FloatFacts.twenty_five_truthy E) as T.
    unfold JS.truthy_number in T. apply negb_true_iff in T. rewrite T.
    split; [eauto | reflexivity].
  - destruct (JS.falsy_number s);
      (split; [discriminate|];
       intros (s' & H & H'); injection H as <-; congruence).
Qed.

(** ** The order of the ranking list *)

Lemma or_zero_number (v : option float) :
  PrimFloat.is_nan (JS.or_zero v) = false.
Proof.
  destruct v as [x|]; [|reflexivity]. cbn [JS.or_zero].
  unfold JS.truthy_number, JS.falsy_number.
  destruct (x =? 0); cbn [orb negb]; [reflexivity|].
  destruct (PrimFloat.is_nan x) eqn:E; cbn [negb]; [reflexivity | exact E].
Qed.

Section SortFacts.

Variable A : Type.
Variable key : A -> float.
Hypothesis key_number : forall a, PrimFloat.is_nan (key a) = false.

Lemma insert_permutation (cmp : A -> A -> float) (a : A) (l : list A) :
  Permutation (a :: l) (JS.insert cmp a l).
Proof.
  induction l as [|b l IH]; cbn [JS.insert].
  - apply Permutation_refl.
  - destruct (0 <? cmp a b).
    + eapply Permutation_trans; [apply perm_swap|].
      apply perm_skip, IH.
    + apply Permutation_refl.
Qed.

Lemma sort_permutation (cmp : A -> A -> float) (l : list A) :
  Permutation l (JS.sort cmp l).
Proof.
  induction l as [|a l IH]; cbn [JS.sort fold_right].
  - apply Permutation_refl.
  - eapply Permutation_trans; [apply perm_skip, IH|].
    apply insert_permutation.
Qed.

Lemma not_below_trans (a b c : A) :
  not_below key a b -> not_below key b c -> not_below key a c.
Proof.
  unfold not_below. intros Hab Hbc.
  exact (@FloatFacts.leb_trans _ _ _ Hbc Hab).
Qed.

(** Inserting into a descending list keeps it descending: the new row goes
    behind exactly the rows whose key is strictly higher. *)
Lemma insert_sorted (a : A) (l : list A) :
  StronglySorted (not_below key) l ->
  StronglySorted (not_below key) (JS.insert (descending key) a l).
Proof.
  induction 1 as [|b l Hs IH Hb]; cbn [JS.insert].
  - constructor; constructor.
  - unfold descending at 1.
    rewrite (@Binary64.sub_positive _ _ (key_number a) (key_number b)).
    destruct (key a <? key b) eqn:E.
    + constructor; [exact IH|].
      eapply Permutation_Forall; [apply insert_permutation|].
      constructor; [|exact Hb].
      unfold not_below. apply FloatFacts.ltb_leb, E.
    + assert (Hab : not_below key a b).
      { unfold not_below.
        rewrite (@FloatFacts.leb_negb_ltb _ _ (key_number b) (key_number a)), E.
        reflexivity. }
      constructor; [constructor; assumption|].
      constructor; [exact Hab|].
      eapply Forall_impl; [|exact Hb].
      intros c Hc. exact (@not_below_trans a b c Hab Hc).
Qed.

Lemma sort_sorted (l : list A) :
  StronglySorted (not_below key) (JS.sort (descending key) l).
Proof.
  induction l as [|a l IH]; cbn [JS.sort fold_right].
  - constructor.
  - apply insert_sorted, IH.
Qed.

End SortFacts.

(** C10, as stated, fails: a candidate with the higher combined score can be
    ranked second, and of two candidates with the same technical score the
    one who has not been interviewed can be ranked first. *)
Lemma ranking_not_by_combined_score :
  let interviewed s := Samples.application_with (Some s) None None
                         [Samples.scored 10] in
  let fresh s := Samples.application_with (Some s) None None [] in
  Ranking.sortedData (Some [interviewed 60; fresh 70])
  = [fresh 70; interviewed 60]
  /\ combined (Ranking.calculateCombinedScore (fresh 70)) = 45.5
  /\ combined (Ranking.calculateCombinedScore (interviewed 60)) = 74
  /\ (combined (Ranking.calculateCombinedScore (fresh 70))
      <? combined (Ranking.calculateCombinedScore (interviewed 60))) = true
  /\ Ranking.sortedData (Some [fresh 70; interviewed 70])
     = [fresh 70; interviewed 70]
  /\ (combined (Ranking.calculateCombinedScore (fresh 70))
      <? combined (Ranking.calculateCombinedScore (interviewed 70))) = true.
Proof. cbv zeta. repeat split. Qed.

(** C10, amended: the ranking list is a reordering of the fetched rows in
    descending order of technical score ([total_score], absent counted as
    0): every row's technical score is at least that of each row after
    it. *)
Theorem ranking_sorted_by_technical_score :
  forall data : option (list Application),
    let rows := match data with Some rows => rows | None => [] end in
    Permutation rows (Ranking.sortedData data)
    /\ StronglySorted
         (fun a b => (technicalScore b <=? technicalScore a) = true)
         (Ranking.sortedData data).
Proof.
  intros data rows. split.
  - apply sort_permutation.
  - exact (@sort_sorted Application technicalScore
             (fun a => or_zero_number (total_score a)) rows).
Qed.

(** * Further properties of the page code *)

(** ** More on comparisons *)

Module OrderFacts.

Ltac by_outcome x y :=
  rewrite ?ltb_spec, ?leb_spec, ?FloatAxioms.eqb_spec;
  unfold SFltb, SFleb, SFeqb;
  rewrite ?(FloatFacts.SFcompare_antisym (Prim2SF x) (Prim2SF y));
  destruct (SFcompare (Prim2SF x) (Prim2SF y)) as [[ | | ]|];
  simpl; intuition congruence.

(** Equal numbers are below each other. *)
Lemma eqb_leb (x y : float) :
  (x =? y) = true -> (x <=? y) = true /\ (y <=? x) = true.
Proof. by_outcome x y. Qed.

(** [<=] is [<] or [==]. *)
Lemma leb_ltb_eqb (x y : float) : (x <=? y) = (x <? y) || (x =? y).
Proof. by_outcome x y. Qed.

(** A number strictly above one equal to [k] is not equal to [k]. *)
Lemma above_equal_differs (x y k : float) :
  (x =? k) = true -> (x <? y) = true -> (y =? k) = false.
Proof.
  intros Hx Hlt. destruct (y =? k) eqn:Hy; [|reflexivity].
  apply eqb_leb in Hx, Hy.
  pose proof (@FloatFacts.leb_trans _ _ _ (proj1 Hy) (proj2 Hx)) as H.
  rewrite (@FloatFacts.ltb_true_leb_false x y Hlt) in H. discriminate.
Qed.

End OrderFacts.

(** ** The order of the ranking list, continued *)

Section SortMore.

Variable A : Type.
Variable key : A -> float.
Hypothesis key_number : forall a, PrimFloat.is_nan (key a) = false.

Lemma insert_decision (a b : A) :
  (0 <? descending key a b) = (key a <? key b).
Proof.
  unfold descending.
  apply (@Binary64.sub_positive _ _ (key_number a) (key_number b)).
Qed.

(** A row goes to the front of rows none of which is strictly higher. *)
Lemma insert_front (a : A) (l : list A) :
  Forall (not_below key a) l -> JS.insert (descending key) a l = a :: l.
Proof.
  destruct 1 as [|b l Hb Hl]; cbn [JS.insert]; [reflexivity|].
  rewrite insert_decision.
  rewrite (@FloatFacts.leb_true_ltb_false _ _ Hb). reflexivity.
Qed.

Lemma sort_of_sorted (l : list A) :
  StronglySorted (not_below key) l -> JS.sort (descending key) l = l.
Proof.
  induction 1 as [|a l Hs IH Ha]; cbn [JS.sort fold_right]; [reflexivity|].
  fold (JS.sort (descending key) l). rewrite IH. apply insert_front, Ha.
Qed.

(** Inserting a row leaves the rows of any other key as they were, and
    puts the row in front of the rows of its own key. *)
Lemma filter_insert (k : float) (a : A) (l : list A) :
  filter (fun x => key x =? k) (JS.insert (descending key) a l)
  = filter (fun x => key x =? k) (a :: l).
Proof.
  induction l as [|b l IH]; [reflexivity|].
  cbn [JS.insert]. rewrite insert_decision.
  destruct (key a <? key b) eqn:E; [|reflexivity].
  cbn [filter] in IH |- *. rewrite IH.
  destruct (key a =? k) eqn:Ea; [|reflexivity].
  rewrite (@OrderFacts.above_equal_differs _ _ _ Ea E). reflexivity.
Qed.

Lemma filter_sort (k : float) (l : list A) :
  filter (fun x => key x =? k) (JS.sort (descending key) l)
  = filter (fun x => key x =? k) l.
Proof.
  induction l as [|a l IH]; [reflexivity|].
  cbn [JS.sort fold_right]. fold (JS.sort (descending key) l).
  rewrite filter_insert. cbn [filter]. rewrite IH. reflexivity.
Qed.

(** Sorting commutes with a change of the rows that keeps their keys. *)
Lemma insert_map (B : Type) (key' : B -> float) (f : A -> B) (a : A)
    (l : list A) :
  (forall x, key' (f x) = key x) ->
  JS.insert (descending key') (f a) (map f l)
  = map f (JS.insert (descending key) a l).
Proof.
  intro Hf. induction l as [|b l IH]; [reflexivity|].
  cbn [JS.insert map]. unfold descending at 1 3. rewrite !Hf.
  destruct (0 <? key b - key a); cbn [map]; [rewrite IH|]; reflexivity.
Qed.

Lemma sort_map (B : Type) (key' : B -> float) (f : A -> B) (l : list A) :
  (forall x, key' (f x) = key x) ->
  JS.sort (descending key') (map f l) = map f (JS.sort (descending key) l).
Proof.
  intro Hf. induction l as [|a l IH]; [reflexivity|].
  cbn [JS.sort fold_right map].
  fold (JS.sort (descending key') (map f l)).
  fold (JS.sort (descending key) l).
  rewrite IH. apply insert_map, Hf.
Qed.

End SortMore.

(** X1: rows with the same technical score keep the order in which they were
    fetched: restricted to the rows of any one score, the ranking list is
    the fetched list. *)
Theorem ranking_order_is_stable :
  forall (data : option (list Application)) (k : float),
    let rows := match data with Some rows => rows | None => [] end in
    filter (fun a => technicalScore a =? k) (Ranking.sortedData data)
    = filter (fun a => technicalScore a =? k) rows.
Proof.
  intros data k rows.
  exact (@filter_sort Application technicalScore
           (fun a => or_zero_number (total_score a)) k rows).
Qed.

(** X2: sorting the ranking list again changes nothing, and a fetched list
    that is already in descending order of technical score is shown as it
    is. *)
Theorem ranking_resort_changes_nothing :
  forall data : option (list Application),
    Ranking.sortedData (Some (Ranking.sortedData data))
    = Ranking.sortedData data
    /\ forall rows : list Application,
        StronglySorted
          (fun a b => (technicalScore b <=? technicalScore a) = true) rows ->
        Ranking.sortedData (Some rows) = rows.
Proof.
  intro data.
  assert (S : forall rows : list Application,
             StronglySorted
               (fun a b => (technicalScore b <=? technicalScore a) = true)
               rows ->
             Ranking.sortedData (Some rows) = rows).
  { intros rows H.
    exact (@sort_of_sorted Application technicalScore
             (fun a => or_zero_number (total_score a)) rows H). }
  split; [|exact S].
  apply S.
  exact (@sort_sorted Application technicalScore
           (fun a => or_zero_number (total_score a))
           match data with Some rows => rows | None => [] end).
Qed.

(** X3: the order depends on the rows' [total_score] only: changing the
    rows in any way that keeps every [total_score] and then sorting gives
    the sorted list of the changed rows. *)
Theorem ranking_order_reads_total_score_only :
  forall (f : Application -> Application) (rows : list Application),
    (forall a, total_score (f a) = total_score a) ->
    Ranking.sortedData (Some (map f rows))
    = map f (Ranking.sortedData (Some rows)).
Proof.
  intros f rows Hf.
  apply (@sort_map Application technicalScore Application technicalScore f).
  intro a. unfold technicalScore. rewrite Hf. reflexivity.
Qed.

Lemma ranking_order_reads_total_score_only_witness :
  let decide (a : Application) :=
    {| id := id a; total_score := total_score a;
       recruitment_task_status := recruitment_task_status a;
       candidate_decision := Some "offered"%string;
       interviews := interviews a |} in
  let rows := [Samples.application_with (Some 60) None None [];
               Samples.application_with (Some 70) None None []] in
  Ranking.sortedData (Some (map decide rows))
  = map decide (Ranking.sortedData (Some rows)).
Proof.
  cbv zeta.
  apply (ranking_order_reads_total_score_only
           (fun a => {| id := id a; total_score := total_score a;
                        recruitment_task_status := recruitment_task_status a;
                        candidate_decision := Some "offered"%string;
                        interviews := interviews a |})).
  intro a. reflexivity.
Defined.

(** ** The kanban board *)

Lemma stage_eqb_eq (a b : RecruitmentStage) :
  DashboardPage.stage_eqb a b = true <-> a = b.
Proof. destruct a, b; cbn; split; congruence. Qed.

(** The rows of a group are the rows of its stage, in the fetched order. *)
Lemma group_rows (apps : list Application) (g : DashboardPage.StageGroup) :
  In g (DashboardPage.applicationsByStage apps) ->
  DashboardPage.applications g
  = filter (fun app =>
              DashboardPage.stage_eqb (Dashboard.getApplicationStage app)
                (DashboardPage.stage_id (DashboardPage.stage g))) apps
  /\ DashboardPage.count g = List.length (DashboardPage.applications g).
Proof.
  unfold DashboardPage.applicationsByStage. rewrite in_map_iff.
  intros (st & <- & _). split; reflexivity.
Qed.

Lemma by_stage_permutation (A : Type) (f : A -> RecruitmentStage)
    (l : list A) :
  Permutation l
    (List.concat
       (map (fun st => filter (fun x => DashboardPage.stage_eqb (f x) st) l)
          [new_applications; cv_screening; ai_interview; recruitment_task;
           decision])).
Proof.
  induction l as [|a l IH]; [reflexivity|].
  cbn [map List.concat filter] in IH |- *. rewrite !app_nil_r in IH |- *.
  destruct (f a); cbn [DashboardPage.stage_eqb].
  - apply perm_skip, IH.
  - apply Permutation_cons_app, IH.
  - rewrite app_assoc. rewrite app_assoc in IH.
    apply Permutation_cons_app, IH.
  - rewrite 2!app_assoc. rewrite 2!app_assoc in IH.
    apply Permutation_cons_app. exact IH.
  - rewrite 3!app_assoc. rewrite 3!app_assoc in IH.
    apply Permutation_cons_app. exact IH.
Qed.

Lemma group_counts_total (apps : list Application) :
  list_sum (map DashboardPage.count (DashboardPage.applicationsByStage apps))
  = List.length apps.
Proof.
  rewrite (Permutation_length
             (@by_stage_permutation _ Dashboard.getApplicationStage apps)).
  cbn [DashboardPage.applicationsByStage DashboardPage.RECRUITMENT_STAGES
         map List.concat DashboardPage.stage_id DashboardPage.count
         list_sum fold_right].
  rewrite !length_app. cbn [List.length]. lia.
Qed.

(** X4: the kanban board shows every fetched application in exactly one
    column, the column of its derived stage; the five columns come in
    pipeline order and their counts add up to the number of applications. *)
Theorem kanban_shows_each_application_once :
  forall apps : list Application,
    let groups := DashboardPage.applicationsByStage apps in
    map (fun g => DashboardPage.stage_id (DashboardPage.stage g)) groups
    = [new_applications; cv_screening; ai_interview; recruitment_task;
       decision]
    /\ Permutation apps (List.concat (map DashboardPage.applications groups))
    /\ list_sum (map DashboardPage.count groups)
       = DashboardPage.totalApplications apps
    /\ (forall g app,
           In g groups ->
           (In app (DashboardPage.applications g)
            <-> In app apps
                /\ Dashboard.getApplicationStage app
                   = DashboardPage.stage_id (DashboardPage.stage g))).
Proof.
  intros apps groups. split; [reflexivity|].
  assert (P : Permutation apps
                (List.concat (map DashboardPage.applications groups))).
  { exact (@by_stage_permutation _ Dashboard.getApplicationStage apps). }
  split; [exact P|]. split.
  - apply group_counts_total.
  - intros g app Hg. destruct (@group_rows apps g Hg) as [-> _].
    rewrite filter_In, stage_eqb_eq. reflexivity.
Qed.

Lemma chart_rows (apps : list Application) :
  DashboardPage.chartData apps
  = filter (fun item => (0 <? DashboardPage.value item)%nat)
      (DashboardPage.map_index
         (fun stageGroup index =>
            {| DashboardPage.item_name :=
                 DashboardPage.name (DashboardPage.stage stageGroup);
               DashboardPage.value := DashboardPage.count stageGroup;
               DashboardPage.item_color :=
                 JS.index DashboardPage.CHART_COLORS
                   (index mod List.length DashboardPage.CHART_COLORS) |})
         0 (DashboardPage.applicationsByStage apps)).
Proof. reflexivity. Qed.

Lemma list_sum_cons (n : nat) (l : list nat) :
  list_sum (n :: l) = (n + list_sum l)%nat.
Proof. reflexivity. Qed.

Lemma sum_filter_positive (A : Type) (v : A -> nat) (l : list A) :
  list_sum (map v (filter (fun x => (0 <? v x)%nat) l)) = list_sum (map v l).
Proof.
  induction l as [|a l IH]; [reflexivity|]. cbn [filter map].
  rewrite list_sum_cons, <- IH.
  destruct (Nat.ltb_spec 0 (v a)); cbn [map].
  - apply list_sum_cons.
  - lia.
Qed.

Lemma values_of_chart
    (f : DashboardPage.StageGroup -> nat -> DashboardPage.ChartItem)
    (l : list DashboardPage.StageGroup) :
  (forall g i, DashboardPage.value (f g i) = DashboardPage.count g) ->
  forall i,
    map DashboardPage.value (DashboardPage.map_index f i l)
    = map DashboardPage.count l.
Proof.
  intro Hf. induction l as [|g l IH]; intro i; [reflexivity|].
  cbn [DashboardPage.map_index map]. rewrite Hf, IH. reflexivity.
Qed.

Lemma colours_of_chart (i : nat) (l : list DashboardPage.StageGroup) :
  Forall (fun item => DashboardPage.item_color item <> None)
    (DashboardPage.map_index
       (fun stageGroup index =>
          {| DashboardPage.item_name :=
               DashboardPage.name (DashboardPage.stage stageGroup);
             DashboardPage.value := DashboardPage.count stageGroup;
             DashboardPage.item_color :=
               JS.index DashboardPage.CHART_COLORS
                 (index mod List.length DashboardPage.CHART_COLORS) |})
       i l).
Proof.
  revert i. induction l as [|g l IH]; intro i; constructor; [|apply IH].
  cbn [DashboardPage.item_color]. unfold JS.index.
  apply nth_error_Some. apply Nat.mod_upper_bound. discriminate.
Qed.

(** X5: the slices of the pie chart add up to the number of applications:
    dropping the empty stages loses nothing, every slice drawn is positive
    and has a colour, and the chart is empty only when there are no
    applications. *)
Theorem chart_slices_add_up :
  forall apps : list Application,
    list_sum (map DashboardPage.value (DashboardPage.chartData apps))
    = DashboardPage.totalApplications apps
    /\ Forall (fun item => (0 < DashboardPage.value item)%nat
                           /\ DashboardPage.item_color item <> None)
         (DashboardPage.chartData apps)
    /\ (DashboardPage.chartData apps = [] <-> apps = []).
Proof.
  intro apps.
  assert (S : list_sum (map DashboardPage.value (DashboardPage.chartData apps))
              = DashboardPage.totalApplications apps).
  { rewrite chart_rows, sum_filter_positive, values_of_chart by reflexivity.
    apply group_counts_total. }
  split; [exact S|]. split.
  - rewrite chart_rows. apply Forall_forall. intros item Hi.
    apply filter_In in Hi. destruct Hi as [Hin Hv]. split.
    + apply Nat.ltb_lt, Hv.
    + clear Hv. revert item Hin. apply Forall_forall, colours_of_chart.
  - split.
    + intro E. rewrite E in S. destruct apps; [reflexivity | discriminate].
    + intros ->. reflexivity.
Qed.

(** ** The task status and the other badges *)

(** X6: the task status shown and the send button go together: the button
    is offered exactly when the status is "not_sent"; no status at all is
    shown when the combined score is not at least 50, even for a task that
    was sent or completed; "waiting_for_solution" and "completed" are shown
    exactly for an eligible application whose task was sent, respectively
    completed. *)
Theorem task_status_matches_send_button :
  forall app : Application,
    let t := Ranking.getTaskStatus app in
    (Ranking.canSend t = true
     <-> Ranking.task_status t = Some "not_sent"%string)
    /\ (Ranking.task_status t = None
        <-> (50 <=? combined (Ranking.calculateCombinedScore app)) = false)
    /\ (Ranking.task_status t = Some "waiting_for_solution"%string
        <-> (50 <=? combined (Ranking.calculateCombinedScore app)) = true
            /\ recruitment_task_status app = Some "task_sent"%string)
    /\ (Ranking.task_status t = Some "completed"%string
        <-> (50 <=? combined (Ranking.calculateCombinedScore app)) = true
            /\ recruitment_task_status app = Some "task_completed"%string).
Proof.
  intro app. cbv zeta. unfold Ranking.getTaskStatus.
  destruct (50 <=? combined (Ranking.calculateCombinedScore app)); cbn [negb].
  2: { cbn. repeat split; try discriminate; intros [? ?]; discriminate. }
  destruct (recruitment_task_status app) as [s|].
  2: { cbn. repeat split; try discriminate; intros [? ?]; discriminate. }
  destruct (String.eqb_spec s "") as [->|_].
  { cbn. repeat split; try discriminate; intros [? ?]; discriminate. }
  destruct (String.eqb_spec s "task_sent") as [->|Hs].
  { cbn. repeat split; try discriminate; intros [? ?]; discriminate. }
  destruct (String.eqb_spec s "task_completed") as [->|Hc].
  { cbn. repeat split; try discriminate; intros [? ?]; discriminate. }
  cbn. repeat split; try discriminate; intros [? ?]; congruence.
Qed.

(** X7: an application that can be sent the task is never badged "not
    recommended", and is badged "semi-recommended" only when its combined
    score is exactly 50. *)
Theorem sendable_is_not_unrecommended :
  forall app : Application,
    Ranking.canSend (Ranking.getTaskStatus app) = true ->
    Ranking.getRecommendationBadge app <> NotRecommended
    /\ (Ranking.getRecommendationBadge app = SemiRecommended ->
        (combined (Ranking.calculateCombinedScore app) =? 50) = true).
Proof.
  intros app H. apply canSend_iff in H. destruct H as (H50 & _).
  unfold Ranking.getRecommendationBadge. cbv zeta.
  set (c := combined (Ranking.calculateCombinedScore app)) in *.
  destruct (c <=? 20) eqn:E20.
  - pose proof (@FloatFacts.leb_trans _ _ _ H50 E20) as F. discriminate F.
  - destruct (c <=? 50) eqn:E50; split; try discriminate.
    intros _. rewrite OrderFacts.leb_ltb_eqb in E50.
    rewrite (@FloatFacts.leb_true_ltb_false _ _ H50) in E50. exact E50.
Qed.

Lemma sendable_is_not_unrecommended_witness :
  let app := Samples.application_with (Some 50) None None
               [Samples.scored 5] in
  Ranking.canSend (Ranking.getTaskStatus app) = true
  /\ Ranking.getRecommendationBadge app = SemiRecommended
  /\ (combined (Ranking.calculateCombinedScore app) =? 50) = true.
Proof.
  cbv zeta.
  assert (C : Ranking.canSend
                (Ranking.getTaskStatus
                   (Samples.application_with (Some 50) None None
                      [Samples.scored 5])) = true) by reflexivity.
  split; [exact C|]. split; [reflexivity|].
  apply (proj2 (sendable_is_not_unrecommended _ C)). reflexivity.
Defined.

(** X8: an application whose score the badge calls qualified, and whose
    latest interview (if any) is not completed, is offered the interview
    button. *)
Theorem qualified_gets_interview_button :
  forall app : Application,
    Ranking.getQualificationStatus (total_score app) = Ranking.Qualifies ->
    Ranking.hasData (Ranking.getInterviewStatus (interviews app)) = false ->
    Ranking.showInterviewButton app = true.
Proof.
  intros app Hq Hd. unfold Ranking.showInterviewButton.
  unfold Ranking.getQualificationStatus in Hq.
  destruct (total_score app) as [s|]; [|discriminate].
  rewrite Hd. unfold JS.truthy_number.
  destruct (JS.falsy_number s); [discriminate|].
  destruct (25 <=? s) eqn:E; [|discriminate].
  assert (T : (25 <=? s) = true -> (20 <=? s) = true).
  { apply FloatFacts.leb_trans. reflexivity. }
  rewrite (T E). reflexivity.
Qed.

Lemma qualified_gets_interview_button_witness :
  Ranking.showInterviewButton
    (Samples.application_with (Some 30) None None []) = true.
Proof.
  apply qualified_gets_interview_button; reflexivity.
Defined.

(** ** The colour of the score *)

(** X9: the colour of a score and the qualification badge use the same
    cuts: a number is grey exactly when it is falsy (null, 0 or NaN), red
    exactly when the badge would call it not qualifying, and green, yellow
    or orange exactly when the badge would call it qualified. *)
Theorem score_colour_bands :
  forall score : option float,
    (RankingPage.getScoreColor score = "text-gray-400"%string
     <-> JS.truthy_num score = false)
    /\ (RankingPage.getScoreColor score = "text-red-600"%string
        <-> Ranking.getQualificationStatus score = Ranking.DoesNotQualify)
    /\ (Ranking.getQualificationStatus score = Ranking.Qualifies
        <-> RankingPage.getScoreColor score = "text-green-600"%string
            \/ RankingPage.getScoreColor score = "text-yellow-600"%string
            \/ RankingPage.getScoreColor score = "text-orange-600"%string).
Proof.
  intros [s|]; cbn [RankingPage.getScoreColor Ranking.getQualificationStatus
                      JS.truthy_num].
  2: { repeat split; try discriminate; intuition discriminate. }
  unfold JS.truthy_number.
  destruct (JS.falsy_number s); cbn [negb].
  { repeat split; try discriminate; intuition discriminate. }
  assert (T70 : (70 <=? s) = true -> (25 <=? s) = true).
  { apply FloatFacts.leb_trans. reflexivity. }
  assert (T50 : (50 <=? s) = true -> (25 <=? s) = true).
  { apply FloatFacts.leb_trans. reflexivity. }
  destruct (70 <=? s); [rewrite T70 by reflexivity|];
    [repeat split; try discriminate; intuition discriminate|].
  destruct (50 <=? s); [rewrite T50 by reflexivity|];
    [repeat split; try discriminate; intuition discriminate|].
  destruct (25 <=? s);
    repeat split; try discriminate; intuition discriminate.
Qed.

(** ** The two pages compared *)

Lemma profile_band_off_boundaries (scores : Scores) :
  let c := combined scores in
  PrimFloat.is_nan c = false ->
  (c =? 20) = false -> (c =? 50) = false ->
  Profile.recommendation scores
  = (if c <=? 20 then NotRecommended
     else if c <=? 50 then SemiRecommended else Recommended).
Proof.
  intros c Hn H20 H50. unfold Profile.recommendation. fold c.
  assert (N20 : PrimFloat.is_nan 20 = false) by reflexivity.
  assert (N50 : PrimFloat.is_nan 50 = false) by reflexivity.
  rewrite (@FloatFacts.leb_negb_ltb 50 c N50 Hn).
  rewrite (@FloatFacts.leb_negb_ltb 20 c N20 Hn).
  rewrite (OrderFacts.leb_ltb_eqb c 20), (OrderFacts.leb_ltb_eqb c 50).
  rewrite H20, H50, !orb_false_r.
  destruct (c <? 20) eqn:E20, (c <? 50) eqn:E50; cbn [negb]; try reflexivity.
  exfalso.
  assert (T : (c <=? 20) = true -> (c <=? 50) = true).
  { intro L. apply (@FloatFacts.leb_trans c 20 50 L). reflexivity. }
  rewrite (OrderFacts.leb_ltb_eqb c 20), (OrderFacts.leb_ltb_eqb c 50) in T.
  rewrite E20, E50, H50 in T. discriminate (T eq_refl).
Qed.

(** X10: away from the two boundaries the pages agree: when both pages
    compute the same combined score, it is a number and it is neither 20
    nor 50, the profile page shows the band of the ranking page. *)
Theorem bands_agree_off_the_boundaries :
  forall app : Application,
    let c := combined (Ranking.calculateCombinedScore app) in
    combined (Profile.calculateScores app) = c ->
    PrimFloat.is_nan c = false ->
    (c =? 20) = false -> (c =? 50) = false ->
    Profile.recommendation (Profile.calculateScores app)
    = Ranking.getRecommendationBadge app.
Proof.
  intros app c Hp Hn H20 H50.
  rewrite profile_band_off_boundaries; rewrite Hp; try assumption.
  reflexivity.
Qed.

Lemma bands_agree_off_the_boundaries_witness :
  let app := Samples.application_with (Some 80) None None [Samples.scored 8] in
  Profile.recommendation (Profile.calculateScores app)
  = Ranking.getRecommendationBadge app.
Proof.
  cbv zeta. apply bands_agree_off_the_boundaries; reflexivity.
Defined.

(** X11: with no interview or a single one the two pages compute the same
    scores, and so they do with several interviews whose first and last
    have the same assessment. *)
Theorem scores_agree_with_one_interview :
  forall (i : string) (s : option float) (t d : option string),
    let row ivs := {| id := i; total_score := s;
                      recruitment_task_status := t;
                      candidate_decision := d; interviews := ivs |} in
    Profile.calculateScores (row None)
    = Ranking.calculateCombinedScore (row None)
    /\ Profile.calculateScores (row (Some []))
       = Ranking.calculateCombinedScore (row (Some []))
    /\ (forall x, Profile.calculateScores (row (Some [x]))
                  = Ranking.calculateCombinedScore (row (Some [x])))
    /\ (forall x l y,
           assessment_of (Some x) = assessment_of (Some y) ->
           Profile.calculateScores (row (Some (x :: l ++ [y])))
           = Ranking.calculateCombinedScore (row (Some (x :: l ++ [y])))).
Proof.
  intros i s t d row. repeat split.
  intros x l y H.
  rewrite ranking_scores_shape, profile_scores_shape.
  rewrite (@latest_interview_snoc (row (Some (x :: l ++ [y]))) (x :: l) y)
    by reflexivity.
  rewrite (@first_interview_cons (row (Some (x :: l ++ [y]))) x (l ++ [y]))
    by reflexivity.
  rewrite H. reflexivity.
Qed.

(** ** The interview badge *)

Lemma getInterviewStatus_last (l : list Interview) (x : Interview) :
  Ranking.getInterviewStatus (Some (l ++ [x]))
  = Ranking.getInterviewStatus (Some [x]).
Proof.
  destruct l as [|a l]; [reflexivity|].
  change (Ranking.getInterviewStatus (Some ((a :: l) ++ [x])))
    with (match JS.index ((a :: l) ++ [x])
                  (List.length ((a :: l) ++ [x]) - 1) with
          | Some y => Ranking.getInterviewStatus (Some [y])
          | None => {| Ranking.label := Ranking.UnknownStatus;
                       Ranking.hasData := false;
                       Ranking.interview := None |}
          end).
  rewrite index_last. reflexivity.
Qed.

(** X12: the interview badge reads the last interview only: earlier
    interviews change nothing, the interview is handed on exactly when it
    is completed, and a non-empty list is never badged as having no
    interview. *)
Theorem interview_status_reads_last_interview :
  forall (l : list Interview) (x : Interview),
    Ranking.getInterviewStatus (Some (l ++ [x]))
    = Ranking.getInterviewStatus (Some [x])
    /\ Ranking.interview (Ranking.getInterviewStatus (Some (l ++ [x])))
       = (if String.eqb (status x) "completed" then Some x else None)
    /\ Ranking.hasData (Ranking.getInterviewStatus (Some (l ++ [x])))
       = String.eqb (status x) "completed"
    /\ (Ranking.label (Ranking.getInterviewStatus (Some (l ++ [x])))
        = Ranking.NoInterview -> False).
Proof.
  intros l x.
  rewrite getInterviewStatus_last. cbn.
  destruct (String.eqb (status x) "completed");
    [repeat split; discriminate|].
  destruct (String.eqb (status x) "scheduled");
    [repeat split; discriminate|].
  destruct (String.eqb (status x) "in_progress");
    repeat split; discriminate.
Qed.

(** ** Interview tokens *)

Lemma string_app_assoc (a b c : string) :
  ((a ++ b) ++ c)%string = (a ++ (b ++ c))%string.
Proof.
  induction a as [|x a IH]; [reflexivity|]. cbn [String.append].
  rewrite IH. reflexivity.
Qed.


Lemma split_nonempty (s : string) : Webhook.split_underscore s <> [].
Proof.
  destruct s as [|c s]; cbn [Webhook.split_underscore]; [discriminate|].
  destruct (Ascii.eqb c "_"); [discriminate|].
  destruct (Webhook.split_underscore s); discriminate.
Qed.

Lemma split_whole (s : string) :
  contains_underscore s = false -> Webhook.split_underscore s = [s].
Proof.
  induction s as [|c s IH]; [reflexivity|].
  cbn [contains_underscore Webhook.split_underscore].
  destruct (Ascii.eqb c "_"); [discriminate|]. cbn [orb].
  intro H. rewrite (IH H). reflexivity.
Qed.

(** Splitting [s1_s2] where [s1] has no underscore. *)
Lemma split_first (s1 s2 : string) :
  contains_underscore s1 = false ->
  Webhook.split_underscore (s1 ++ String "_" s2)
  = s1 :: Webhook.split_underscore s2.
Proof.
  induction s1 as [|c s1 IH]; [reflexivity|].
  cbn [contains_underscore]. intro H. apply orb_false_iff in H.
  destruct H as [Hc Hs].
  change (Webhook.split_underscore ((String c s1 ++ String "_" s2)%string))
    with (if Ascii.eqb c "_"
          then EmptyString :: Webhook.split_underscore (s1 ++ String "_" s2)
          else match Webhook.split_underscore (s1 ++ String "_" s2) with
               | part :: parts => String c part :: parts
               | [] => [String c EmptyString]
               end).
  rewrite Hc, (IH Hs). reflexivity.
Qed.

(** X13: the token made when an interview is started gives back the
    application: for an application id without an underscore, the id the
    webhook reads out of the token is that id, whatever the clock value. *)
Theorem token_gives_back_application_id :
  forall (app : Application) (now : string),
    contains_underscore (id app) = false ->
    Webhook.applicationIdOfToken (RankingPage.interviewToken app now)
    = Some (id app).
Proof.
  intros app now H. unfold Webhook.applicationIdOfToken,
    RankingPage.interviewToken.
  change ("interview_" ++ id app ++ "_" ++ now)%string
    with ("interview" ++ String "_" (id app ++ String "_" now))%string.
  rewrite (@split_first "interview" _ eq_refl), (@split_first _ _ H).
  pose proof (split_nonempty now) as N.
  destruct (Webhook.split_underscore now); [contradiction|]. reflexivity.
Qed.

Lemma token_gives_back_application_id_witness :
  Webhook.applicationIdOfToken
    (RankingPage.interviewToken
       (Samples.application_with None None None []) "1700000000000")
  = Some "a"%string.
Proof.
  apply (token_gives_back_application_id
           (Samples.application_with None None None []) "1700000000000").
  reflexivity.
Defined.

(** X14: an application id with an underscore is cut at its first
    underscore when read back from the token, and a token without any
    underscore gives no application id. *)
Theorem token_edge_cases :
  (forall (i1 i2 now : string) s t d ivs,
      contains_underscore i1 = false ->
      Webhook.applicationIdOfToken
        (RankingPage.interviewToken
           {| id := (i1 ++ String "_" i2)%string; total_score := s;
              recruitment_task_status := t; candidate_decision := d;
              interviews := ivs |} now) = Some i1)
  /\ (forall token : string,
         contains_underscore token = false ->
         Webhook.applicationIdOfToken token = None).
Proof.
  split.
  - intros i1 i2 now s t d ivs H.
    unfold Webhook.applicationIdOfToken, RankingPage.interviewToken.
    cbn [id].
    change ("interview_" ++ (i1 ++ String "_" i2) ++ "_" ++ now)%string
      with ("interview"
              ++ String "_" ((i1 ++ String "_" i2) ++ String "_" now))%string.
    rewrite (@split_first "interview" _ eq_refl).
    rewrite string_app_assoc.
    change (String "_" i2 ++ String "_" now)%string
      with (String "_" (i2 ++ String "_" now)).
    rewrite (@split_first _ _ H).
    pose proof (split_nonempty (i2 ++ String "_" now)) as N.
    destruct (Webhook.split_underscore (i2 ++ String "_" now));
      [contradiction|]. reflexivity.
  - intros token H. unfold Webhook.applicationIdOfToken.
    rewrite (@split_whole _ H). reflexivity.
Qed.

(** ** Expanded cards *)

Lemma has_add (set : RankingPage.StringSet) (x y : string) :
  RankingPage.has (RankingPage.add set x) y
  = RankingPage.has set y || String.eqb y x.
Proof.
  unfold RankingPage.add.
  destruct (RankingPage.has set x) eqn:E.
  - destruct (String.eqb_spec y x) as [->|_];
      [rewrite E; reflexivity | rewrite orb_false_r; reflexivity].
  - unfold RankingPage.has. rewrite existsb_app. cbn [existsb].
    rewrite orb_false_r. reflexivity.
Qed.

Lemma has_delete (set : RankingPage.StringSet) (x y : string) :
  RankingPage.has (RankingPage.delete set x) y
  = RankingPage.has set y && negb (String.eqb y x).
Proof.
  unfold RankingPage.has, RankingPage.delete.
  induction set as [|z set IH]; [reflexivity|]. cbn [filter existsb].
  destruct (String.eqb_spec x z) as [Exz|Exz]; cbn [negb existsb].
  - rewrite IH, <- Exz.
    destruct (String.eqb y x), (existsb (String.eqb y) set); reflexivity.
  - rewrite IH.
    destruct (String.eqb_spec y z) as [Eyz|Eyz]; cbn [orb]; [|reflexivity].
    destruct (String.eqb_spec y x) as [Eyx|Eyx]; [congruence|reflexivity].
Qed.

(** X15: toggling a card flips that card and no other; toggling it twice
    leaves every card as it was; and the set keeps holding each id once. *)
Theorem toggle_flips_one_card :
  forall (prev : RankingPage.StringSet) (appId x : string),
    RankingPage.has (RankingPage.toggleCardExpansion prev appId) x
    = (if String.eqb x appId then negb (RankingPage.has prev appId)
       else RankingPage.has prev x)
    /\ RankingPage.has
         (RankingPage.toggleCardExpansion
            (RankingPage.toggleCardExpansion prev appId) appId) x
       = RankingPage.has prev x
    /\ (NoDup prev -> NoDup (RankingPage.toggleCardExpansion prev appId)).
Proof.
  intros prev appId x.
  assert (T : forall p y,
             RankingPage.has (RankingPage.toggleCardExpansion p appId) y
             = (if String.eqb y appId then negb (RankingPage.has p appId)
                else RankingPage.has p y)).
  { intros p y. unfold RankingPage.toggleCardExpansion. cbv zeta.
    destruct (RankingPage.has p appId) eqn:E.
    - rewrite has_delete.
      destruct (String.eqb_spec y appId) as [->|_]; cbn [negb];
        [apply andb_false_r | apply andb_true_r].
    - rewrite has_add.
      destruct (String.eqb_spec y appId) as [->|_]; cbn [negb];
        [apply orb_true_r | apply orb_false_r]. }
  split; [apply T|]. split.
  - rewrite !T. rewrite String.eqb_refl.
    destruct (String.eqb_spec x appId) as [->|_];
      [apply negb_involutive | reflexivity].
  - intro N. unfold RankingPage.toggleCardExpansion. cbv zeta.
    destruct (RankingPage.has prev appId) eqn:E.
    + apply NoDup_filter, N.
    + unfold RankingPage.add. rewrite E.
      apply NoDup_app; [exact N | repeat constructor; intros [] |].
      intros y Hy [Ey|[]]. subst y.
      unfold RankingPage.has in E.
      assert (existsb (String.eqb appId) prev = true); [|congruence].
      apply existsb_exists. exists appId.
      split; [exact Hy | apply String.eqb_refl].
Qed.

(** ** Sending the recruitment task *)

(** X16: once the task has been sent to an application, it cannot be sent
    to it again: the rows with its id have status task_sent and no send
    button, the other rows are untouched, and no row's id or scores
    change. *)
Theorem task_cannot_be_sent_twice :
  forall (rows : list Application) (app : Application),
    let rows' := RankingPage.sendRecruitmentTask rows app in
    map id rows' = map id rows
    /\ map Ranking.calculateCombinedScore rows'
       = map Ranking.calculateCombinedScore rows
    /\ (forall row', In row' rows' -> id row' = id app ->
                     recruitment_task_status row' = Some "task_sent"%string
                     /\ Ranking.canSend (Ranking.getTaskStatus row') = false)
    /\ (forall row, In row rows -> id row <> id app -> In row rows').
Proof.
  intros rows app rows'. subst rows'. unfold RankingPage.sendRecruitmentTask.
  repeat split.
  - rewrite map_map. apply map_ext. intro row.
    destruct (String.eqb (id row) (id app)); reflexivity.
  - rewrite map_map. apply map_ext. intro row.
    destruct (String.eqb (id row) (id app)); reflexivity.
  - apply in_map_iff in H. destruct H as (row & E & _).
    destruct (String.eqb_spec (id row) (id app)) as [_|Hn];
      [subst row'; reflexivity | subst row'; contradiction].
  - apply in_map_iff in H. destruct H as (row & E & _).
    destruct (String.eqb_spec (id row) (id app)) as [_|Hn];
      [|subst row'; contradiction].
    destruct (Ranking.canSend (Ranking.getTaskStatus row')) eqn:C;
      [|reflexivity].
    apply canSend_iff in C. destruct C as (_ & C & _).
    subst row'. exfalso. apply C. reflexivity.
  - intros row Hin Hn. apply in_map_iff. exists row. split; [|exact Hin].
    destruct (String.eqb_spec (id row) (id app)); [contradiction|reflexivity].
Qed.



(** ** What the webhook stores and what the ranking page shows *)


(** ** Stages and interviews *)

(** X19: the stage ignores what the interviews are: any two non-empty
    interview lists give the same stage (so a merely scheduled interview
    already counts), an absent list counts as an empty one, a scored
    application without interviews is in CV screening, and one with an
    interview never is. *)
Theorem stage_ignores_interview_contents :
  forall (i : string) (s : option float) (t d : option string)
         (x y : Interview) (l l' : list Interview),
    let row ivs := {| id := i; total_score := s;
                      recruitment_task_status := t;
                      candidate_decision := d; interviews := ivs |} in
    Candidates.getApplicationStage (row (Some (x :: l)))
    = Candidates.getApplicationStage (row (Some (y :: l')))
    /\ Candidates.getApplicationStage (row None)
       = Candidates.getApplicationStage (row (Some []))
    /\ (Candidates.getApplicationStage (row (Some (x :: l))) = cv_screening
        -> False)
    /\ (JS.truthy_num s = true ->
        Candidates.getApplicationStage (row (Some [])) = cv_screening).
Proof.
  intros i s t d x y l l' row. unfold Candidates.getApplicationStage.
  cbn [row total_score interviews recruitment_task_status candidate_decision].
  destruct (JS.truthy_num s); cbn [negb]; repeat split; try discriminate.
  destruct (JS.truthy_str t); cbn [negb]; [|discriminate].
  destruct (JS.truthy_str d); discriminate.
Qed.
